(** * setup.py of intel-extension-for-pytorch: a shallow embedding

    The build script reads the process environment, shells out to git, to two
    code generators, to cmake and to make/ninja, and deletes files on
    [clean].  Everything outside the interpreter (sub-processes, the file
    system, the platform) is an oracle of a [World]; the interpreter's own
    state (working directory, [os.environ], what has been printed, spawned
    or written so far) is threaded through a state-and-error monad.

    Strings are 8-bit character strings.  On a string of ASCII characters
    ([PyStr.is_7bit]) [upper] and [strip] are Python 3's [str.upper] and
    [str.strip].  Python 3 also changes the case of letters and trims white
    space beyond ASCII; the model leaves every character above 127 alone, so
    what is said of every value of an environment variable ([ascii_only]) is
    said of its ASCII values. *)

From Stdlib Require Import String Ascii ZArith Lia Bool.
From stdpp Require Import gmap strings list pretty.

(** ** Python's [str] methods used by the script *)

Module PyStr.

Definition is_ascii_lower (c : ascii) : bool :=
  ((97 <=? nat_of_ascii c) && (nat_of_ascii c <=? 122))%nat.

Definition is_ascii_upper (c : ascii) : bool :=
  ((65 <=? nat_of_ascii c) && (nat_of_ascii c <=? 90))%nat.

Definition upper_char (c : ascii) : ascii :=
  if is_ascii_lower c then ascii_of_nat (nat_of_ascii c - 32) else c.

Definition lower_char (c : ascii) : ascii :=
  if is_ascii_upper c then ascii_of_nat (nat_of_ascii c + 32) else c.

(** [s.upper()], for [s] a string of ASCII characters *)
Fixpoint upper (s : string) : string :=
  match s with
  | EmptyString => EmptyString
  | String c r => String (upper_char c) (upper r)
  end.

(** [s.lower()]: not used by the script, only to say "case-insensitively". *)
Fixpoint lower (s : string) : string :=
  match s with
  | EmptyString => EmptyString
  | String c r => String (lower_char c) (lower r)
  end.

(** [c.isspace()] on the ASCII range: TAB, LF, VT, FF, CR, FS, GS, RS, US
    and the space. *)
Definition isspace (c : ascii) : bool :=
  let n := nat_of_ascii c in
  (((9 <=? n) && (n <=? 13)) || ((28 <=? n) && (n <=? 31)) || (n =? 32))%nat.

Fixpoint lstrip (s : string) : string :=
  match s with
  | EmptyString => EmptyString
  | String c r => if isspace c then lstrip r else s
  end.

Fixpoint rstrip (s : string) : string :=
  match s with
  | EmptyString => EmptyString
  | String c r =>
      match rstrip r with
      | EmptyString => if isspace c then EmptyString else String c EmptyString
      | r' => String c r'
      end
  end.

(** [s.strip()] *)
Definition strip (s : string) : string := rstrip (lstrip s).

(** [s.startswith(p)] *)
Fixpoint startswith (p s : string) : bool :=
  match p, s with
  | EmptyString, _ => true
  | String a p', String b s' => Ascii.eqb a b && startswith p' s'
  | String _ _, EmptyString => false
  end.

Fixpoint last_char (s : string) : option ascii :=
  match s with
  | EmptyString => None
  | String c EmptyString => Some c
  | String _ r => last_char r
  end.

(** [s.endswith(c)] for a one-character [c] *)
Definition endswith_char (c : ascii) (s : string) : bool :=
  match last_char s with
  | Some d => Ascii.eqb c d
  | None => false
  end.

(** [s.split(sep)] for a one-character separator: never the empty list. *)
Fixpoint split (sep : ascii) (s : string) : list string :=
  match s with
  | EmptyString => [EmptyString]
  | String c r =>
      if Ascii.eqb c sep then EmptyString :: split sep r
      else match split sep r with
           | h :: t => String c h :: t
           | [] => [String c EmptyString]
           end
  end.

(** [sep.join(l)] *)
Fixpoint join (sep : string) (l : list string) : string :=
  match l with
  | [] => EmptyString
  | [x] => x
  | x :: r => x +:+ sep +:+ join sep r
  end.

(** [s[:n]] *)
Fixpoint slice_to (n : nat) (s : string) : string :=
  match n, s with
  | S n', String c r => String c (slice_to n' r)
  | _, _ => EmptyString
  end.

(** [x in l] for a list of strings *)
Definition mem (x : string) (l : list string) : bool :=
  existsb (String.eqb x) l.

(** Truth value of a string: the empty string is false. *)
Definition truthy (s : string) : bool :=
  match s with EmptyString => false | _ => true end.

(** [s.decode('ascii')] succeeds only on 7-bit input. *)
Fixpoint is_7bit (s : string) : bool :=
  match s with
  | EmptyString => true
  | String c r => (nat_of_ascii c <? 128)%nat && is_7bit r
  end.

End PyStr.

(** ** [os.path] on POSIX (the script refuses Windows) *)

Module PosixPath.
Import PyStr.

Definition sep : ascii := "/"%char.

Definition isabs (p : string) : bool := startswith "/" p.

(** One step of [posixpath.join]'s loop. *)
Definition join2 (path b : string) : string :=
  if startswith "/" b then b
  else if negb (truthy path) || endswith_char sep path then path +:+ b
  else path +:+ "/" +:+ b.

(** [os.path.join(a, *p)] *)
Definition join (a : string) (p : list string) : string :=
  fold_left join2 p a.

Fixpoint has_sep (s : string) : bool :=
  match s with
  | EmptyString => false
  | String c r => Ascii.eqb c sep || has_sep r
  end.

(** [p[:p.rfind('/') + 1]] *)
Fixpoint upto_last_sep (s : string) : string :=
  match s with
  | EmptyString => EmptyString
  | String c r =>
      if has_sep r then String c (upto_last_sep r)
      else if Ascii.eqb c sep then String c EmptyString
      else EmptyString
  end.

Fixpoint all_sep (s : string) : bool :=
  match s with
  | EmptyString => true
  | String c r => Ascii.eqb c sep && all_sep r
  end.

(** [head.rstrip('/')] *)
Fixpoint rstrip_sep (s : string) : string :=
  match s with
  | EmptyString => EmptyString
  | String c r =>
      match rstrip_sep r with
      | EmptyString =>
          if Ascii.eqb c sep then EmptyString else String c EmptyString
      | r' => String c r'
      end
  end.

(** [os.path.dirname(p)] *)
Definition dirname (p : string) : string :=
  let head := upto_last_sep p in
  if truthy head && negb (all_sep head) then rstrip_sep head else head.

(** The body of [normpath]'s loop over the components. *)
Definition norm_step (initial_slashes : nat) (new_comps : list string)
    (comp : string) : list string :=
  if mem comp [EmptyString; "."] then new_comps
  else if negb (String.eqb comp "..")
          || ((initial_slashes =? 0)%nat && (length new_comps =? 0)%nat)
          || match last new_comps with
             | Some l => String.eqb l ".."
             | None => false
             end
  then new_comps ++ [comp]
  else removelast new_comps.

(** POSIX allows one or two initial slashes, but treats three or more as a
    single slash. *)
Definition initial_slashes (path : string) : nat :=
  if startswith "/" path then
    if startswith "//" path && negb (startswith "///" path) then 2 else 1
  else 0.

Definition norm_comps (path : string) : list string :=
  fold_left (norm_step (initial_slashes path)) (split sep path) [].

Definition with_slashes (initial_slashes : nat) (path : string) : string :=
  match initial_slashes with
  | 0 => path
  | 1 => "/" +:+ path
  | _ => "//" +:+ path
  end.

(** [os.path.normpath(path)] *)
Definition normpath (path : string) : string :=
  if String.eqb path EmptyString then "."
  else
    let path' :=
      with_slashes (initial_slashes path) (PyStr.join "/" (norm_comps path)) in
    if truthy path' then path' else ".".

(** [os.path.abspath(path)], with [os.getcwd()] made explicit. *)
Definition abspath (getcwd path : string) : string :=
  normpath (if isabs path then path else join getcwd [path]).

End PosixPath.

(** ** The interpreter's state and what the script does to the outside *)

(** Exceptions the script can let escape. *)
Inductive exn : Type :=
| CalledProcessError (returncode : Z) (cmd : list string)
| OSError (what : string)
| UnicodeDecodeError
| RuntimeError (msg : string)
| AttributeError (attr : string).

(** How a call ends: it returns, [sys.exit(code)] unwinds the process, or an
    exception is raised (none of the script's own handlers catches one of
    these but the two written out below). *)
Inductive outcome (A : Type) : Type :=
| Return (a : A)
| SysExit (code : Z)
| Raise (e : exn).
Arguments Return {A} a.
Arguments SysExit {A} code.
Arguments Raise {A} e.

Inductive stream : Type := stdout | stderr.

(** What an observer of the process sees, in order. *)
Inductive event : Type :=
| Print (to : stream) (line : string)
| PrintFailedToRun (cmd : list string)
    (* "Failed to run '<repr of cmd>'" on stderr *)
| Chdir (dir : string)
| Spawn (argv : list string) (cwd : string) (env : gmap string string)
| Mkdir (dir : string)
| WriteFile (path : string) (content : string).

Record process : Type := {
  cwd : string;                      (* os.getcwd() *)
  environ : gmap string string;      (* os.environ *)
  log : list event
}.

(** How a child process ends: [OSError] when it cannot be started. *)
Inductive child : Type :=
| Exited (returncode : Z) (output : string)
| NotStarted (what : string).

(** Everything the script asks of its surroundings. *)
Record World : Type := {
  script_file : string;              (* __file__ *)
  torch_file : string;               (* torch.__file__ *)
  python_include_dir : string;       (* get_paths()['include'] *)
  sys_executable : string;           (* sys.executable *)
  platform_system : string;          (* platform.system() *)
  cpu_count : N;                     (* multiprocessing.cpu_count() *)
  find_executable : string -> option string;
  run_child : list string -> string -> gmap string string -> child;
  can_chdir : string -> bool;
  path_exists : string -> bool;
  path_isdir : string -> bool;
  can_mkdir : string -> bool;
  can_write : string -> bool;
  get_ext_fullpath : string -> string;   (* build_ext.get_ext_fullpath *)
  same_object : string -> string -> bool (* do two equal strings share one object *)
}.

Definition M (A : Type) : Type := process -> outcome A * process.

Definition ret {A} (a : A) : M A := fun p => (Return a, p).

Definition bind {A B} (m : M A) (k : A -> M B) : M B :=
  fun p =>
    match m p with
    | (Return a, p') => k a p'
    | (SysExit c, p') => (SysExit c, p')
    | (Raise e, p') => (Raise e, p')
    end.

Notation "'do' x <- m ; k" := (bind m (fun x => k))
  (at level 10, x name, m at level 100, k at level 200,
   format "'[v' 'do'  x  <-  m ; '/' k ']'").

Definition sys_exit {A} (code : Z) : M A := fun p => (SysExit code, p).
Definition raise {A} (e : exn) : M A := fun p => (Raise e, p).
Definition get : M process := fun p => (Return p, p).

(** [try: body except Exception: handler]; [SystemExit] is not an
    [Exception] and passes through. *)
Definition try_except {A} (body : M A) (handler : exn -> M A) : M A :=
  fun p =>
    match body p with
    | (Raise e, p') => handler e p'
    | r => r
    end.

Definition emit (e : event) : M unit :=
  fun p => (Return tt, {| cwd := cwd p; environ := environ p; log := log p ++ [e] |}).

Definition print (to : stream) (line : string) : M unit := emit (Print to line).

(** [os.getenv(name)] and [os.getenv(name, default)] *)
Definition getenv (name : string) : M (option string) :=
  fun p => (Return (environ p !! name), p).

Definition getenv_or (name default : string) : M string :=
  fun p => (Return (match environ p !! name with Some v => v | None => default end), p).

(** [os.environ[name] = value] *)
Definition setenv (name value : string) : M unit :=
  fun p => (Return tt,
            {| cwd := cwd p; environ := <[name := value]> (environ p); log := log p |}).

(** A path as the operating system reads it in a process whose working
    directory is [getcwd]. *)
Definition resolve (getcwd path : string) : string :=
  if PosixPath.isabs path then path else PosixPath.join getcwd [path].

(** [os.path.exists], [os.path.isdir], [os.mkdir] *)
Definition os_path_exists (w : World) (path : string) : M bool :=
  fun p => (Return (path_exists w (resolve (cwd p) path)), p).

Definition os_path_isdir (w : World) (path : string) : M bool :=
  fun p => (Return (path_isdir w (resolve (cwd p) path)), p).

Definition os_mkdir (w : World) (dir : string) : M unit :=
  fun p =>
    if can_mkdir w (resolve (cwd p) dir)
    then (Return tt, {| cwd := cwd p; environ := environ p; log := log p ++ [Mkdir dir] |})
    else (Raise (OSError dir), p).

(** [os.chdir(dir)], resolved against the current directory. *)
Definition chdir (w : World) (dir : string) : M unit :=
  fun p =>
    let target := PosixPath.abspath (cwd p) dir in
    if can_chdir w target
    then (Return tt, {| cwd := target; environ := environ p; log := log p ++ [Chdir dir] |})
    else (Raise (OSError dir), p).

(** Start a child and wait for it.  [dir] and [env] are the [cwd=] and
    [env=] keywords; without them the child inherits the process's own. *)
Definition spawn (w : World) (argv : list string) (dir : option string)
    (env : option (gmap string string)) : M child :=
  fun p =>
    let d := match dir with
             | Some d => resolve (cwd p) d
             | None => cwd p
             end in
    let e := match env with Some e => e | None => environ p end in
    (Return (run_child w argv d e),
     {| cwd := cwd p; environ := environ p; log := log p ++ [Spawn argv d e] |}).

(** [subprocess.call(argv)] *)
Definition subprocess_call (w : World) (argv : list string) : M Z :=
  do c <- spawn w argv None None;
  match c with
  | Exited code _ => ret code
  | NotStarted what => raise (OSError what)
  end.

(** [subprocess.check_call(argv, cwd=dir, env=env)] *)
Definition check_call (w : World) (argv : list string) (dir : string)
    (env : gmap string string) : M unit :=
  do c <- spawn w argv (Some dir) (Some env);
  match c with
  | Exited code _ =>
      if (code =? 0)%Z then ret tt else raise (CalledProcessError code argv)
  | NotStarted what => raise (OSError what)
  end.

(** [subprocess.check_output(argv, cwd=dir)] *)
Definition check_output (w : World) (argv : list string) (dir : string) : M string :=
  do c <- spawn w argv (Some dir) None;
  match c with
  | Exited code out =>
      if (code =? 0)%Z then ret out else raise (CalledProcessError code argv)
  | NotStarted what => raise (OSError what)
  end.

(** [bytes.decode('ascii')] *)
Definition decode_ascii (b : string) : M string :=
  if PyStr.is_7bit b then ret b else raise UnicodeDecodeError.

(** [open(path, 'w')] and the writes up to the end of the [with] block. *)
Definition write_file (w : World) (path content : string) : M unit :=
  fun p =>
    if can_write w (resolve (cwd p) path)
    then emit (WriteFile path content) p
    else (Raise (OSError path), p).

(** [a is b] on strings: the same object, hence in particular equal. *)
Definition py_is (w : World) (a b : string) : bool :=
  String.eqb a b && same_object w a b.

(** The module-level names every function of the script reads. *)
Record globals : Type := {
  pytorch_install_dir : string;
  base_dir : string
}.

Definition module_globals (w : World) (start_dir : string) : globals :=
  {| pytorch_install_dir :=
       PosixPath.dirname (PosixPath.abspath start_dir (torch_file w));
     base_dir :=
       PosixPath.dirname (PosixPath.abspath start_dir (script_file w)) |}.

(** ** Environment Prober *)

(** def _check_env_flag(name, default=''):
      return os.getenv(name, default).upper() in ['ON', '1', 'YES', 'TRUE', 'Y'] *)
Definition flag_of (value : string) : bool :=
  PyStr.mem (PyStr.upper value) ["ON"; "1"; "YES"; "TRUE"; "Y"].

Definition _check_env_flag (name default : string) : M bool :=
  do v <- getenv_or name default;
  ret (flag_of v).

(** def _get_env_backend() *)
Definition _get_env_backend : M string :=
  let env_backend_var_name := "IPEX_BACKEND" in
  let env_backend_options := ["cpu"; "gpu"] in
  do env_backend_val <- getenv env_backend_var_name;
  match env_backend_val with
  | None => ret "cpu"
  | Some val =>
      if String.eqb (PyStr.strip val) EmptyString then ret "cpu"
      else if negb (PyStr.mem val env_backend_options) then
        do _ <- print stdout "Intel PyTorch Extension only supports CPU and GPU now.";
        sys_exit 1
      else ret val
  end.

(** ** Version Resolver and Version File Emitter *)

Definition nl : string := String "010"%char EmptyString.
Definition dq : string := String (ascii_of_nat 34) EmptyString.

Definition git_rev_parse_HEAD : list string := ["git"; "rev-parse"; "HEAD"].

(** def get_git_head_sha(base_dir) *)
Definition get_git_head_sha (w : World) (base_dir : string) : M (string * string) :=
  do out <- check_output w git_rev_parse_HEAD base_dir;
  do txt <- decode_ascii out;
  let ipex_git_sha := PyStr.strip txt in
  do parent <- os_path_isdir w (PosixPath.join base_dir [".."; ".git"]);
  do torch_git_sha <-
    (if parent then
       do out <- check_output w git_rev_parse_HEAD (PosixPath.join base_dir [".."]);
       do txt <- decode_ascii out;
       ret (PyStr.strip txt)
     else ret EmptyString);
  ret (ipex_git_sha, torch_git_sha).

(** def get_build_version(ipex_git_sha) *)
Definition get_build_version (ipex_git_sha : string) : M string :=
  do version <- getenv_or "TORCH_IPEX_VERSION" "1.0.0";
  do versioned <- _check_env_flag "VERSIONED_IPEX_BUILD" "0";
  if versioned then
    try_except
      (ret (version +:+ "+" +:+ PyStr.slice_to 7 ipex_git_sha))
      (fun _ => ret version)
  else ret version.

Definition version_py (version ipex_git_sha torch_git_sha : string) : string :=
  "# Autogenerated file, do not edit!" +:+ nl +:+
  "__version__ = '" +:+ version +:+ "'" +:+ nl +:+
  "__ipex_gitrev__ = '" +:+ ipex_git_sha +:+ "'" +:+ nl +:+
  "__torch_gitrev__ = '" +:+ torch_git_sha +:+ "'" +:+ nl.

Definition version_cpp (ipex_git_sha torch_git_sha : string) : string :=
  "// Autogenerated file, do not edit!" +:+ nl +:+
  "#include " +:+ dq +:+ "torch_ipex/csrc/version.h" +:+ dq +:+ nl +:+ nl +:+
  "namespace torch_ipex {" +:+ nl +:+ nl +:+
  "const char IPEX_GITREV[] = {" +:+ dq +:+ ipex_git_sha +:+ dq +:+ "};" +:+ nl +:+
  "const char TORCH_GITREV[] = {" +:+ dq +:+ torch_git_sha +:+ dq +:+ "};" +:+ nl +:+ nl +:+
  "}  // namespace torch_ipex" +:+ nl.

(** def create_version_files(base_dir, version, ipex_git_sha, torch_git_sha) *)
Definition create_version_files (w : World)
    (base_dir version ipex_git_sha torch_git_sha : string) : M unit :=
  do _ <- print stdout ("Building torch_ipex version: " +:+ version);
  let py_version_path :=
    PosixPath.join base_dir ["intel_pytorch_extension_py"; "version.py"] in
  do _ <- write_file w py_version_path (version_py version ipex_git_sha torch_git_sha);
  let cpp_version_path :=
    PosixPath.join base_dir ["torch_ipex"; "csrc"; "version.cpp"] in
  write_file w cpp_version_path (version_cpp ipex_git_sha torch_git_sha).

(** ** Code Generator Invoker *)

Definition gen_sparse_cmd (g : globals) : list string :=
  let cpu_ops_path := PosixPath.join (base_dir g) ["torch_ipex"; "csrc"; "cpu"] in
  let sparse_dec_file_path :=
    PosixPath.join (base_dir g) ["scripts"; "cpu"; "pytorch_headers"] in
  ["./gen-sparse-cpu-ops.sh"; cpu_ops_path; pytorch_install_dir g; sparse_dec_file_path].

Definition gen_dense_cmd (g : globals) : list string :=
  let cpu_ops_path := PosixPath.join (base_dir g) ["torch_ipex"; "csrc"; "cpu"] in
  ["./gen-dense-cpu-ops.sh"; cpu_ops_path; pytorch_install_dir g].

(** def generate_ipex_cpu_aten_code(base_dir) *)
Definition generate_ipex_cpu_aten_code (w : World) (g : globals) : M unit :=
  do p <- get;
  let cur_dir := PosixPath.abspath (cwd p) "." in
  do _ <- chdir w (PosixPath.join (base_dir g) ["scripts"; "cpu"]);
  let generate_code_cmd := gen_sparse_cmd g in
  do rc <- subprocess_call w generate_code_cmd;
  do _ <-
    (if negb (rc =? 0)%Z then
       do _ <- emit (PrintFailedToRun generate_code_cmd);
       do _ <- chdir w cur_dir;
       sys_exit 1
     else ret tt);
  let generate_code_cmd := gen_dense_cmd g in
  do rc <- subprocess_call w generate_code_cmd;
  do _ <-
    (if negb (rc =? 0)%Z then
       do _ <- emit (PrintFailedToRun generate_code_cmd);
       do _ <- chdir w cur_dir;
       sys_exit 1
     else ret tt);
  chdir w cur_dir.

(** ** Extension Descriptor *)

(** class IPEXExt(Extension, object) *)
Record IPEXExt : Type := {
  name : string;
  sources : list string;
  project_dir : string;
  build_dir : string
}.

(** def __init__(self, name, project_dir=os.path.dirname(__file__)) *)
Definition IPEXExt__init__ (getcwd : string) (name project_dir : string) : IPEXExt :=
  {| name := name;
     sources := [];
     project_dir := PosixPath.abspath getcwd project_dir;
     build_dir := PosixPath.join project_dir ["build"] |}.

(** ** Clean hook *)

Inductive clean_event : Type :=
| Globbed (wildcard : string) (found : list string)
| Removed (filename : string)         (* os.remove succeeded *)
| RemovedTree (filename : string).    (* os.remove raised OSError, shutil.rmtree ran *)

Module IPEXClean.
Import PyStr.

Definition marker : string := "# BEGIN NOT-CLEAN-FILES ".

(** [re.compile(r'^#( BEGIN NOT-CLEAN-FILES )?').match(line)]: [None] when
    the line does not start with '#', else the match with its group 1. *)
Definition pat_match (line : string) : option (option string) :=
  if startswith "#" line then
    Some (if startswith marker line then Some " BEGIN NOT-CLEAN-FILES " else None)
  else None.

(** [if match.group(1)] *)
Definition group1_truthy (m : option string) : bool :=
  match m with
  | Some g => truthy g
  | None => false
  end.

Section Hook.
(** The file system the hook works on: what [glob.glob] finds in it,
    [os.remove] ([None] when it raises [OSError]),
    [shutil.rmtree(_, ignore_errors=True)], and the clean command of
    distutils that the hook ends with. *)
Context {FS : Type}.
Variable glob : FS -> string -> list string.
Variable os_remove : FS -> string -> option FS.
Variable rmtree : FS -> string -> FS.
Variable base_clean_run : FS -> FS.

Definition remove_entry (st : FS * list clean_event) (filename : string)
    : FS * list clean_event :=
  match os_remove (fst st) filename with
  | Some fs' => (fs', snd st ++ [Removed filename])
  | None => (rmtree (fst st) filename, snd st ++ [RemovedTree filename])
  end.

(** for wildcard in filter(None, ignores.split('\n')): ... *)
Fixpoint clean_loop (lines : list string) (st : FS * list clean_event)
    : FS * list clean_event :=
  match lines with
  | [] => st
  | wildcard :: rest =>
      match pat_match wildcard with
      | Some m =>
          if group1_truthy m then st        (* break *)
          else clean_loop rest st           (* a line that begins with '#' *)
      | None =>
          let found := glob (fst st) wildcard in
          clean_loop rest
            (fold_left remove_entry found
               (fst st, snd st ++ [Globbed wildcard found]))
      end
  end.

Definition ignore_lines (ignores : string) : list string :=
  filter (fun l => truthy l = true) (split "010"%char ignores).

(** def run(self); [gitignore] is the content of '.gitignore', [None]
    when it cannot be opened. *)
Definition run (gitignore : option string) (fs : FS)
    : outcome unit * (FS * list clean_event) :=
  match gitignore with
  | None => (Raise (OSError ".gitignore"), (fs, []))
  | Some ignores =>
      let st := clean_loop (ignore_lines ignores) (fs, []) in
      (Return tt, (base_clean_run (fst st), snd st))
  end.

(** The wildcards handed to [glob.glob], in order. *)
Definition globbed (evs : list clean_event) : list string :=
  omap (fun e => match e with Globbed wc _ => Some wc | _ => None end) evs.

(** The entries the hook tried to delete, in order. *)
Definition deleted (evs : list clean_event) : list string :=
  omap (fun e => match e with
                 | Removed f | RemovedTree f => Some f
                 | Globbed _ _ => None
                 end) evs.
End Hook.

End IPEXClean.

(** A directory without subdirectories, for examples: its entries by name.
    [glob] here knows '*', '?' and literal characters, and like Python's
    leaves dot-files to patterns that start with a dot. *)
Module FlatDir.

Fixpoint fnmatch (fuel : nat) (pat name : string) : bool :=
  match fuel with
  | 0 => false
  | S fuel' =>
      match pat, name with
      | EmptyString, EmptyString => true
      | EmptyString, String _ _ => false
      | String "*" p', EmptyString => fnmatch fuel' p' EmptyString
      | String "*" p', String _ n' =>
          fnmatch fuel' p' name || fnmatch fuel' pat n'
      | String "?" p', String _ n' => fnmatch fuel' p' n'
      | String c p', String d n' => Ascii.eqb c d && fnmatch fuel' p' n'
      | String _ _, EmptyString => false
      end
  end.

Definition hidden (s : string) : bool := PyStr.startswith "." s.

Definition glob (fs : list string) (pat : string) : list string :=
  filter (fun n => (fnmatch (String.length pat + String.length n + 1) pat n
                    && (negb (hidden n) || hidden pat)) = true) fs.

Definition os_remove (fs : list string) (filename : string) : option (list string) :=
  if PyStr.mem filename fs
  then Some (filter (fun n => String.eqb n filename = false) fs)
  else None.

Definition rmtree (fs : list string) (filename : string) : list string := fs.

Definition base_clean_run (fs : list string) : list string := fs.

Definition run := IPEXClean.run glob os_remove rmtree base_clean_run.

End FlatDir.

(** ** Native Build Orchestrator *)

(** class IPEXBuild(build_ext, object): the attributes the script touches. *)
Record IPEXBuild : Type := {
  extensions : list IPEXExt;
  cmake : option string
}.

(** [self.cmake], set by [run] before any extension is built. *)
Definition self_cmake (self : IPEXBuild) : M string :=
  match cmake self with
  | Some c => ret c
  | None => raise (AttributeError "cmake")
  end.

(** The fixed part of the build coordinator's arguments. *)
Definition configure_args (g : globals) (w : World)
    (build_type ext_dir : string) : list string :=
  ["-DCMAKE_BUILD_TYPE=" +:+ build_type;
   "-DPYTORCH_INSTALL_DIR=" +:+ pytorch_install_dir g;
   "-DPYTHON_EXECUTABLE=" +:+ sys_executable w;
   "-DCMAKE_INSTALL_PREFIX=" +:+ ext_dir;
   "-DCMAKE_LIBRARY_OUTPUT_DIRECTORY=" +:+ ext_dir;
   "-DPYTHON_INCLUDE_DIR=" +:+ python_include_dir w].

(** def build_extension(self, ext) *)
Definition build_extension (w : World) (g : globals) (self : IPEXBuild)
    (ext : IPEXExt) : M unit :=
  do p <- get;
  let ext_dir :=
    PosixPath.abspath (cwd p) (PosixPath.dirname (get_ext_fullpath w (name ext))) in
  do there <- os_path_exists w (build_dir ext);
  do _ <- (if negb there then os_mkdir w (build_dir ext) else ret tt);
  let build_type := "Release" in
  let use_ninja := false in
  do debug <- _check_env_flag "DEBUG" EmptyString;
  let build_type := if debug then "Debug" else build_type in
  (* install _torch_ipex.so as python module *)
  do nested <-
    (if py_is w (name ext) "torch_ipex"
     then _check_env_flag "USE_SYCL" EmptyString
     else ret false);
  let ext_dir := if nested then ext_dir +:+ "/torch_ipex" else ext_dir in
  let cmake_args := configure_args g w build_type ext_dir in
  do use_sycl <- _check_env_flag "USE_SYCL" EmptyString;
  let cmake_args := if use_sycl then cmake_args ++ ["-DUSE_SYCL=1"] else cmake_args in
  do profiling <- _check_env_flag "DPCPP_ENABLE_PROFILING" EmptyString;
  let cmake_args :=
    if profiling then cmake_args ++ ["-DDPCPP_ENABLE_PROFILING=1"] else cmake_args in
  do ninja <- _check_env_flag "USE_NINJA" EmptyString;
  let use_ninja := if ninja then true else use_ninja in
  let cmake_args := if ninja then cmake_args ++ ["-GNinja"] else cmake_args in
  let build_args := ["-j"; pretty (cpu_count w)] in
  do p <- get;
  let env := environ p in                      (* env = os.environ.copy() *)
  do use_sycl <- _check_env_flag "USE_SYCL" EmptyString;
  do _ <-
    (if use_sycl then
       do _ <- setenv "CXX" "compute++";
       do cmake_exe <- self_cmake self;
       check_call w ([cmake_exe; project_dir ext] ++ cmake_args) (build_dir ext) env
     else
       do cmake_exe <- self_cmake self;
       check_call w ([cmake_exe; project_dir ext] ++ cmake_args) (build_dir ext) env);
  if use_ninja then check_call w ("ninja" :: build_args) (build_dir ext) env
  else check_call w ("make" :: build_args) (build_dir ext) env.

(** for ext in self.extensions: self.build_extension(ext) *)
Fixpoint build_extensions (w : World) (g : globals) (self : IPEXBuild)
    (exts : list IPEXExt) : M unit :=
  match exts with
  | [] => ret tt
  | ext :: rest =>
      do _ <- build_extension w g self ext;
      build_extensions w g self rest
  end.

(** def run(self); returns [self] as the call leaves it. *)
Definition IPEXBuild_run (w : World) (g : globals) (self : IPEXBuild) : M IPEXBuild :=
  do _ <- print stdout "run";
  (* Generate the code before globbing! *)
  do _ <- generate_ipex_cpu_aten_code w g;
  let found :=
    match find_executable w "cmake3" with
    | Some c => if PyStr.truthy c then Some c else find_executable w "cmake"
    | None => find_executable w "cmake"
    end in
  match found with
  | None =>
      raise (RuntimeError
               ("CMake must be installed to build the following extensions: " +:+
                PyStr.join ", " (map name (extensions self))))
  | Some c =>
      let self := {| extensions := extensions self; cmake := Some c |} in
      if String.eqb (platform_system w) "Windows"
      then raise (RuntimeError "Does not support windows")
      else
        do _ <- build_extensions w g self (extensions self);
        ret self
  end.

(** ** The script, run as [python setup.py build_ext]

    The module-level statements in order, then [setup(...)] handing the one
    declared extension to the build hook. *)
Definition setup_py_build_ext (w : World) : M IPEXBuild :=
  do p <- get;
  let g := module_globals w (cwd p) in
  let ext := IPEXExt__init__ (cwd p) "_torch_ipex" (PosixPath.dirname (script_file w)) in
  do shas <- get_git_head_sha w (base_dir g);
  let ipex_git_sha := fst shas in
  let torch_git_sha := snd shas in
  do version <- get_build_version ipex_git_sha;
  do _ <- create_version_files w (base_dir g) version ipex_git_sha torch_git_sha;
  IPEXBuild_run w g {| extensions := [ext]; cmake := None |}.

(** ** What the specification says, in its own words *)

(** "case-insensitively matches" *)
Definition ci_match (a b : string) : bool :=
  String.eqb (PyStr.lower a) (PyStr.lower b).

(** "interpreted as boolean-true when its value case-insensitively matches
    one of {on, 1, yes, true}" *)
Definition spec_flag (value : string) : bool :=
  existsb (ci_match value) ["on"; "1"; "yes"; "true"].

(** The same with the fifth spelling the script accepts. *)
Definition spec_flag_y (value : string) : bool :=
  existsb (ci_match value) ["on"; "1"; "yes"; "true"; "y"].

(** A value that is "blank": nothing but white space. *)
Definition blank (value : string) : bool :=
  String.eqb (PyStr.strip value) EmptyString.


(** A working directory as [os.getcwd()] reports it. *)
Definition getcwd_ok (d : string) : Prop :=
  PosixPath.isabs d = true ∧ PosixPath.normpath d = d.


(** The lines of an ignore-list up to its first marker line. *)
Fixpoint before_marker (lines : list string) : list string :=
  match lines with
  | [] => []
  | l :: rest =>
      if PyStr.startswith IPEXClean.marker l then [] else l :: before_marker rest
  end.

(** A line that is a deletion pattern: not empty, not a comment. *)
Definition is_pattern (l : string) : bool :=
  PyStr.truthy l && negb (PyStr.startswith "#" l).


(** A revision hash as git prints it: hexadecimal digits. *)
Definition is_hex (c : ascii) : bool :=
  let n := nat_of_ascii c in
  (((48 <=? n) && (n <=? 57)) || ((97 <=? n) && (n <=? 102)))%nat.

Fixpoint all_hex (s : string) : bool :=
  match s with
  | EmptyString => true
  | String c r => is_hex c && all_hex r
  end.

(** The base version: TORCH_IPEX_VERSION, "1.0.0" when unset. *)
Definition base_version (p : process) : string :=
  match environ p !! "TORCH_IPEX_VERSION" with
  | Some v => v
  | None => "1.0.0"
  end.

(** A path component once normalised: not empty, no separator inside. *)
Definition plain (c : string) : Prop :=
  PosixPath.has_sep c = false ∧ PyStr.truthy c = true.

(** The directory the generators are run in. *)
Definition scripts_cpu_dir (g : globals) : string :=
  PosixPath.join (base_dir g) ["scripts"; "cpu"].

(** Every character there is, for proofs by enumeration. *)
Definition all_ascii : list ascii := map ascii_of_nat (seq 0 256).

(** ** Observations on a run *)

(** The command lines of the children started, in order. *)
Definition spawned (evs : list event) : list (list string) :=
  omap (fun e => match e with Spawn argv _ _ => Some argv | _ => None end) evs.

(** A boolean flag as [_check_env_flag(name)] sees it in [p]. *)
Definition flag_on (p : process) (name : string) : bool :=
  flag_of (match environ p !! name with Some v => v | None => EmptyString end).

(** The install location [build_extension] settles on for [ext]. *)
Definition install_dir (w : World) (p : process) (ext : IPEXExt) : string :=
  let ext_dir :=
    PosixPath.abspath (cwd p) (PosixPath.dirname (get_ext_fullpath w (name ext))) in
  if py_is w (name ext) "torch_ipex" && flag_on p "USE_SYCL"
  then ext_dir +:+ "/torch_ipex"
  else ext_dir.

(** The command line [build_extension] configures [ext] with when the
    install location is [ext_dir]. *)
Definition configure_argv (w : World) (g : globals) (p : process)
    (cmake_exe : string) (ext : IPEXExt) (ext_dir : string) : list string :=
  [cmake_exe; project_dir ext]
  ++ configure_args g w (if flag_on p "DEBUG" then "Debug" else "Release") ext_dir
  ++ (if flag_on p "USE_SYCL" then ["-DUSE_SYCL=1"] else [])
  ++ (if flag_on p "DPCPP_ENABLE_PROFILING" then ["-DDPCPP_ENABLE_PROFILING=1"] else [])
  ++ (if flag_on p "USE_NINJA" then ["-GNinja"] else []).

(** ** A small world to run the script in *)

Definition sha40 : string := "0123456789abcdef0123456789abcdef01234567".

(** git and the sparse generator end with the given status, everything else
    succeeds; cmake is installed under its plain name. *)
Definition demo_world (git_rc sparse_rc : Z) : World :=
  {| script_file := "setup.py";
     torch_file := "/opt/torch/__init__.py";
     python_include_dir := "/usr/include/python3";
     sys_executable := "/usr/bin/python3";
     platform_system := "Linux";
     cpu_count := 4;
     find_executable :=
       fun n => if String.eqb n "cmake" then Some "/usr/bin/cmake" else None;
     run_child := fun argv _ _ =>
       match argv with
       | "git" :: _ =>
           Exited git_rc (if (git_rc =? 0)%Z then sha40 +:+ nl else EmptyString)
       | "./gen-sparse-cpu-ops.sh" :: _ => Exited sparse_rc EmptyString
       | _ => Exited 0 EmptyString
       end;
     can_chdir := fun _ => true;
     path_exists := fun _ => true;
     path_isdir := fun _ => false;
     can_mkdir := fun _ => true;
     can_write := fun _ => true;
     get_ext_fullpath := fun n => "build/lib/" +:+ n +:+ ".so";
     same_object := fun _ _ => true |}.

Definition demo_process (env : list (string * string)) : process :=
  {| cwd := "/w/ipex"; environ := list_to_map env; log := [] |}.

Definition demo_globals : globals := module_globals (demo_world 0 0) "/w/ipex".

(** The descriptor the script declares when run as [python setup.py ...]
    in /w/ipex: [os.path.dirname('setup.py')] is the empty string. *)
Definition demo_ext : IPEXExt :=
  IPEXExt__init__ "/w/ipex" "_torch_ipex" (PosixPath.dirname "setup.py").

(** ** Platform constants and the rpath flag *)

(** IS_WINDOWS = (platform.system() == 'Windows'), and so on *)
Definition IS_WINDOWS (w : World) : bool := String.eqb (platform_system w) "Windows".
Definition IS_DARWIN (w : World) : bool := String.eqb (platform_system w) "Darwin".
Definition IS_LINUX (w : World) : bool := String.eqb (platform_system w) "Linux".

(** def make_relative_rpath(path) *)
Definition make_relative_rpath (w : World) (path : string) : string :=
  if IS_DARWIN w then "-Wl,-rpath,@loader_path/" +:+ path
  else if IS_WINDOWS w then EmptyString
  else "-Wl,-rpath,$ORIGIN/" +:+ path.

(** ** The module-level statements before [setup(...)] *)

(** Lines 221 to 225: the hashes, the version, the two version files. *)
Definition version_prelude (w : World) (g : globals) : M string :=
  do shas <- get_git_head_sha w (base_dir g);
  let ipex_git_sha := fst shas in
  let torch_git_sha := snd shas in
  do version <- get_build_version ipex_git_sha;
  do _ <- create_version_files w (base_dir g) version ipex_git_sha torch_git_sha;
  ret version.

(** ** More observations on a run *)

(** The files written, in order. *)
Definition written (evs : list event) : list string :=
  omap (fun e => match e with WriteFile path _ => Some path | _ => None end) evs.

(** The directories and environments the children were started in. *)
Definition spawn_places (evs : list event) : list (string * gmap string string) :=
  omap (fun e => match e with Spawn _ d env => Some (d, env) | _ => None end) evs.

(** The build driver [build_extension] ends with. *)
Definition build_driver (p : process) : string :=
  if flag_on p "USE_NINJA" then "ninja" else "make".

(** [l1] is an initial segment of [l2]. *)
Definition is_prefix {A} (l1 l2 : list A) : Prop := ∃ rest, l2 = l1 ++ rest.

(** What the clean loop finds, flattened: the entries of the [Globbed]
    events in order. *)
Definition found_entries (evs : list clean_event) : list string :=
  concat (omap (fun e => match e with Globbed _ found => Some found | _ => None end) evs).

(** ** Variations of the small world *)

Definition with_children (run : list string -> string -> gmap string string -> child)
    (w : World) : World :=
  {| script_file := script_file w; torch_file := torch_file w;
     python_include_dir := python_include_dir w; sys_executable := sys_executable w;
     platform_system := platform_system w; cpu_count := cpu_count w;
     find_executable := find_executable w; run_child := run;
     can_chdir := can_chdir w; path_exists := path_exists w;
     path_isdir := path_isdir w; can_mkdir := can_mkdir w; can_write := can_write w;
     get_ext_fullpath := get_ext_fullpath w; same_object := same_object w |}.

Definition with_platform (system : string) (w : World) : World :=
  {| script_file := script_file w; torch_file := torch_file w;
     python_include_dir := python_include_dir w; sys_executable := sys_executable w;
     platform_system := system; cpu_count := cpu_count w;
     find_executable := find_executable w; run_child := run_child w;
     can_chdir := can_chdir w; path_exists := path_exists w;
     path_isdir := path_isdir w; can_mkdir := can_mkdir w; can_write := can_write w;
     get_ext_fullpath := get_ext_fullpath w; same_object := same_object w |}.

Definition with_executables (find : string -> option string) (w : World) : World :=
  {| script_file := script_file w; torch_file := torch_file w;
     python_include_dir := python_include_dir w; sys_executable := sys_executable w;
     platform_system := platform_system w; cpu_count := cpu_count w;
     find_executable := find; run_child := run_child w;
     can_chdir := can_chdir w; path_exists := path_exists w;
     path_isdir := path_isdir w; can_mkdir := can_mkdir w; can_write := can_write w;
     get_ext_fullpath := get_ext_fullpath w; same_object := same_object w |}.

(** The file system answers: which directories can be entered, which paths
    exist, which are directories, which files can be written. *)
Definition with_files (chdir_ok exists_ isdir write_ok : string -> bool)
    (w : World) : World :=
  {| script_file := script_file w; torch_file := torch_file w;
     python_include_dir := python_include_dir w; sys_executable := sys_executable w;
     platform_system := platform_system w; cpu_count := cpu_count w;
     find_executable := find_executable w; run_child := run_child w;
     can_chdir := chdir_ok; path_exists := exists_;
     path_isdir := isdir; can_mkdir := can_mkdir w; can_write := write_ok;
     get_ext_fullpath := get_ext_fullpath w; same_object := same_object w |}.

(** The children of the demo world, one of them ending differently: the
    child whose command starts with [prog] ends as [how]. *)
Definition demo_children (prog : string) (how : child)
    (argv : list string) (d : string) (env : gmap string string) : child :=
  match argv with
  | a :: _ => if String.eqb a prog then how else run_child (demo_world 0 0) argv d env
  | [] => run_child (demo_world 0 0) argv d env
  end.

(** * Properties *)

#[local] Arguments String.append !_ _ / : simpl nomatch.

(** Unfold the monad and the primitive effects, and reduce. *)
Ltac run_monad :=
  cbv [bind ret get getenv getenv_or setenv emit print sys_exit raise try_except];
  cbn [fst snd cwd environ log].

(** ** Strings and paths *)

Example upper_yes : PyStr.upper "Yes" = "YES".
Proof. reflexivity. Qed.

Example strip_gpu : PyStr.strip (" gpu" +:+ nl) = "gpu".
Proof. reflexivity. Qed.

Example split_slashes :
  PyStr.split "/" "/a//b/" = [EmptyString; "a"; EmptyString; "b"; EmptyString].
Proof. reflexivity. Qed.

Example dirname_file : PosixPath.dirname "setup.py" = EmptyString.
Proof. reflexivity. Qed.

Example dirname_abs : PosixPath.dirname "/w/ipex/setup.py" = "/w/ipex".
Proof. reflexivity. Qed.

Example abspath_rel : PosixPath.abspath "/w" "a/../b/./c" = "/w/b/c".
Proof. reflexivity. Qed.

Example abspath_empty : PosixPath.abspath "/w" EmptyString = "/w".
Proof. reflexivity. Qed.

Section Characters.
Import PyStr.

Lemma in_all_ascii (c : ascii) : In c all_ascii.
Proof.
  unfold all_ascii. rewrite <- (ascii_nat_embedding c).
  apply in_map, in_seq. pose proof (nat_ascii_bounded c). lia.
Qed.

Lemma forall_ascii (P : ascii -> bool) :
  forallb P all_ascii = true -> forall c, P c = true.
Proof.
  intros H c. rewrite forallb_forall in H. apply H, in_all_ascii.
Qed.

Lemma forall_ascii2 (P : ascii -> ascii -> bool) :
  forallb (fun c => forallb (P c) all_ascii) all_ascii = true ->
  forall c d, P c d = true.
Proof.
  intros H c d.
  pose proof (forall_ascii _ H c) as Hc. cbv beta in Hc.
  exact (forall_ascii _ Hc d).
Qed.

(** Two characters have the same upper case exactly when they have the
    same lower case. *)
Lemma upper_char_eqb_lower (c d : ascii) :
  Ascii.eqb (upper_char c) (upper_char d) = Ascii.eqb (lower_char c) (lower_char d).
Proof.
  apply eqb_prop.
  revert c d. apply forall_ascii2. vm_compute. reflexivity.
Qed.

Lemma upper_eqb_lower (a b : string) :
  String.eqb (upper a) (upper b) = String.eqb (lower a) (lower b).
Proof.
  revert b. induction a as [|c a IH]; intros [|d b]; simpl; try reflexivity.
  rewrite upper_char_eqb_lower, IH. reflexivity.
Qed.
End Characters.

#[local] Arguments Ascii.eqb : simpl never.

Section Paths.
Import PyStr PosixPath.

Lemma append_nil_r (s : string) : s +:+ EmptyString = s.
Proof. induction s as [|c s IH]; simpl; [reflexivity|]. rewrite IH. reflexivity. Qed.

Lemma append_assoc (a b c : string) : (a +:+ b) +:+ c = a +:+ (b +:+ c).
Proof. induction a as [|x a IH]; simpl; [reflexivity|]. rewrite IH. reflexivity. Qed.

Lemma split_nonempty (c : ascii) (s : string) : split c s <> [].
Proof.
  induction s as [|d s IH]; simpl; [discriminate|].
  destruct (Ascii.eqb d c); [discriminate|].
  destruct (split c s); [contradiction|discriminate].
Qed.

Lemma split_app_sep (c : ascii) (a b : string) :
  split c (a +:+ String c b) = split c a ++ split c b.
Proof.
  induction a as [|d a IH]; simpl.
  - rewrite Ascii.eqb_refl. reflexivity.
  - destruct (Ascii.eqb d c); rewrite IH; [reflexivity|].
    pose proof (split_nonempty c a) as Hne.
    destruct (split c a) as [|h t]; [contradiction|]. reflexivity.
Qed.

Lemma split_no_sep (s : string) : has_sep s = false -> split sep s = [s].
Proof.
  induction s as [|d s IH]; simpl; [reflexivity|].
  intros [Hd Hs]%orb_false_iff. rewrite Hd, (IH Hs). reflexivity.
Qed.

Lemma endswith_sep_inv (x : string) :
  endswith_char sep x = true -> exists x', x = x' +:+ "/".
Proof.
  unfold endswith_char. induction x as [|c x IH]; simpl; [discriminate|].
  destruct x as [|d x].
  - intros H. apply Ascii.eqb_eq in H. subst c. exists EmptyString. reflexivity.
  - intros H. destruct (IH H) as [x' Hx']. exists (String c x'). simpl. rewrite <- Hx'. reflexivity.
Qed.

Lemma norm_step_empty (k : nat) (l : list string) : norm_step k l EmptyString = l.
Proof. reflexivity. Qed.

Lemma norm_step_dot (k : nat) (l : list string) : norm_step k l "." = l.
Proof. reflexivity. Qed.

(** What [join2] does with a relative second part. *)
Lemma join2_relative (x c : string) :
  startswith "/" c = false ->
  join2 x c = if negb (truthy x) || endswith_char sep x then x +:+ c else x +:+ "/" +:+ c.
Proof. intros H. unfold join2. rewrite H. reflexivity. Qed.

Lemma split_join2 (k : nat) (x c : string) :
  startswith "/" c = false -> has_sep c = false -> truthy x = true ->
  fold_left (norm_step k) (split sep (join2 x c)) []
  = norm_step k (fold_left (norm_step k) (split sep x) []) c.
Proof.
  intros Hrel Hsep Hx. rewrite (join2_relative x c Hrel), Hx. simpl negb. simpl orb.
  destruct (endswith_char sep x) eqn:E.
  - destruct (endswith_sep_inv x E) as [x' ->].
    rewrite append_assoc. simpl.
    change (String "/" c) with (String sep c). rewrite split_app_sep.
    change "/"%string with (String sep EmptyString). rewrite split_app_sep.
    rewrite (split_no_sep c Hsep). simpl split.
    rewrite !fold_left_app. reflexivity.
  - change ("/" +:+ c) with (String sep c). rewrite split_app_sep, (split_no_sep c Hsep).
    rewrite fold_left_app. reflexivity.
Qed.

Lemma startswith_slash_cons (c : ascii) (s : string) :
  startswith "/" (String c s) = Ascii.eqb "/" c.
Proof. simpl. apply andb_true_r. Qed.

Lemma initial_slashes_join2 (x c : string) :
  isabs x = true -> startswith "/" c = false -> truthy c = true ->
  initial_slashes (join2 x c) = initial_slashes x.
Proof.
  intros Hx Hrel Hc. rewrite (join2_relative x c Hrel).
  destruct c as [|c0 c]; [discriminate|]. rewrite startswith_slash_cons in Hrel.
  unfold isabs in Hx.
  destruct x as [|c1 x]; [discriminate|]. rewrite startswith_slash_cons in Hx.
  apply Ascii.eqb_eq in Hx. subst c1.
  unfold initial_slashes, endswith_char, sep.
  destruct x as [|c2 x]; simpl.
  { rewrite Hrel. reflexivity. }
  destruct x as [|c3 x]; simpl.
  { destruct (Ascii.eqb "/" c2) eqn:E2; simpl; rewrite ?E2, ?Hrel; reflexivity. }
  destruct (match x with EmptyString => Some c3 | String _ _ => last_char x end) as [d|];
    [destruct (Ascii.eqb "/" d)|]; simpl; reflexivity.
Qed.

Lemma isabs_truthy (x : string) : isabs x = true -> truthy x = true.
Proof. destruct x; [discriminate|reflexivity]. Qed.

Lemma norm_comps_join2 (x c : string) :
  isabs x = true -> startswith "/" c = false -> has_sep c = false -> truthy c = true ->
  norm_comps (join2 x c) = norm_step (initial_slashes x) (norm_comps x) c.
Proof.
  intros Hx Hrel Hsep Hc. unfold norm_comps.
  rewrite (initial_slashes_join2 x c Hx Hrel Hc).
  apply split_join2; auto using isabs_truthy.
Qed.

Lemma join2_nonempty (x c : string) :
  truthy x = true -> startswith "/" c = false -> String.eqb (join2 x c) EmptyString = false.
Proof.
  intros Hx Hrel. rewrite (join2_relative x c Hrel).
  destruct x as [|d x]; [discriminate|].
  destruct (negb (truthy (String d x)) || endswith_char sep (String d x)); reflexivity.
Qed.

Lemma abspath_of_abs (d x : string) : isabs x = true -> abspath d x = normpath x.
Proof. intros H. unfold abspath. rewrite H. reflexivity. Qed.

(** [os.path.abspath(os.path.curdir)] is the working directory. *)
Lemma abspath_curdir (d : string) : getcwd_ok d -> abspath d "." = d.
Proof.
  intros [Habs Hnorm]. unfold abspath. change (isabs ".") with false. cbv iota.
  change (join d ["."]) with (join2 d ".").
  rewrite <- Hnorm at 2. unfold normpath.
  rewrite (join2_nonempty d "." (isabs_truthy d Habs) eq_refl).
  rewrite (initial_slashes_join2 d "." Habs eq_refl eq_refl).
  rewrite (norm_comps_join2 d "." Habs eq_refl eq_refl eq_refl), norm_step_dot.
  destruct d; [discriminate|reflexivity].
Qed.

(** Components: no separator inside, and none empty once normalised. *)
Lemma split_no_sep_inside (s : string) : Forall (fun c => has_sep c = false) (split sep s).
Proof.
  induction s as [|d s IH]; simpl; [repeat constructor|].
  destruct (Ascii.eqb d sep) eqn:E; [constructor; [reflexivity|exact IH]|].
  pose proof (split_nonempty sep s) as Hne.
  destruct (split sep s) as [|h t]; [contradiction|].
  inversion IH; subst. constructor; [|assumption]. simpl. rewrite E. assumption.
Qed.

Lemma Forall_removelast {A} (P : A -> Prop) (l : list A) :
  Forall P l -> Forall P (removelast l).
Proof.
  induction 1 as [|a l Ha Hl IH]; simpl; [constructor|].
  destruct l; [constructor|]. constructor; assumption.
Qed.

Lemma norm_step_plain (k : nat) (l : list string) (c : string) :
  Forall plain l -> has_sep c = false -> Forall plain (norm_step k l c).
Proof.
  intros Hl Hc. unfold norm_step.
  destruct (mem c [EmptyString; "."]) eqn:Em; [assumption|].
  match goal with |- context [if ?b then _ else _] => destruct b end.
  - apply Forall_app; split; [assumption|]. constructor; [|constructor].
    split; [assumption|]. destruct c; [discriminate|reflexivity].
  - apply Forall_removelast, Hl.
Qed.

Lemma norm_fold_plain (k : nat) (cs l : list string) :
  Forall (fun c => has_sep c = false) cs -> Forall plain l ->
  Forall plain (fold_left (norm_step k) cs l).
Proof.
  revert l. induction cs as [|c cs IH]; intros l Hcs Hl; simpl; [assumption|].
  inversion Hcs; subst. apply IH; [assumption|]. apply norm_step_plain; assumption.
Qed.

Lemma norm_comps_plain (x : string) : Forall plain (norm_comps x).
Proof. apply norm_fold_plain; [apply split_no_sep_inside|constructor]. Qed.

Lemma last_char_app (a b : string) :
  truthy b = true -> last_char (a +:+ b) = last_char b.
Proof.
  intros Hb. induction a as [|c a IH]; simpl; [reflexivity|].
  rewrite IH. destruct (a +:+ b) eqn:E; [|reflexivity].
  destruct a; simpl in E; [subst b; discriminate|discriminate].
Qed.

Lemma last_char_plain (c : string) :
  has_sep c = false -> endswith_char sep c = false.
Proof.
  unfold endswith_char. induction c as [|d c IH]; simpl; [reflexivity|].
  intros [Hd Hc]%orb_false_iff. destruct c as [|e c].
  - rewrite Ascii.eqb_sym. exact Hd.
  - apply IH, Hc.
Qed.

Lemma join_cons (sp x : string) (l : list string) :
  l <> [] -> PyStr.join sp (x :: l) = x +:+ sp +:+ PyStr.join sp l.
Proof. destruct l; [contradiction|reflexivity]. Qed.

Lemma join_truthy (l : list string) :
  l <> [] -> Forall plain l -> truthy (PyStr.join "/" l) = true.
Proof.
  destruct l as [|x l]; [contradiction|]. intros _ H. inversion H as [|? ? [_ Hx] _]; subst.
  destruct l; simpl; destruct x; try discriminate; reflexivity.
Qed.

Lemma join_endswith (l : list string) :
  l <> [] -> Forall plain l -> endswith_char sep (PyStr.join "/" l) = false.
Proof.
  induction l as [|x l IH]; [contradiction|]. intros _ H. inversion H as [|? ? [Hx _] Hl]; subst.
  destruct l as [|y l].
  - simpl. apply last_char_plain, Hx.
  - rewrite join_cons by discriminate. unfold endswith_char.
    rewrite last_char_app.
    + rewrite last_char_app by (apply join_truthy; [discriminate|assumption]).
      apply IH; [discriminate|assumption].
    + reflexivity.
Qed.

Lemma join_snoc (l : list string) (c : string) :
  l <> [] -> PyStr.join "/" (l ++ [c]) = PyStr.join "/" l +:+ "/" +:+ c.
Proof.
  induction l as [|x l IH]; [contradiction|]. intros _.
  destruct l as [|y l].
  - reflexivity.
  - change ((x :: y :: l) ++ [c]) with (x :: ((y :: l) ++ [c])).
    rewrite join_cons by (intros H; discriminate H).
    rewrite IH by discriminate. rewrite (join_cons "/" x (y :: l)) by discriminate.
    rewrite !append_assoc. reflexivity.
Qed.

Lemma initial_slashes_abs (x : string) :
  isabs x = true -> initial_slashes x = 1 ∨ initial_slashes x = 2.
Proof.
  unfold isabs, initial_slashes. intros ->.
  destruct (startswith "//" x && negb (startswith "///" x)); auto.
Qed.

(** The normal form of an absolute path. *)
Lemma normpath_abs (x : string) :
  isabs x = true ->
  normpath x = with_slashes (initial_slashes x) (PyStr.join "/" (norm_comps x)).
Proof.
  intros Hx. unfold normpath.
  destruct x as [|c x]; [discriminate|]. change (String.eqb (String c x) EmptyString) with false.
  cbv iota zeta.
  destruct (initial_slashes_abs _ Hx) as [-> | ->]; reflexivity.
Qed.

(** Appending a plain name to an absolute path commutes with [normpath]. *)
Lemma normpath_join_build (x : string) :
  isabs x = true -> normpath (join2 x "build") = join2 (normpath x) "build".
Proof.
  intros Hx.
  assert (Hj : isabs (join2 x "build") = true).
  { rewrite (join2_relative x "build" eq_refl). destruct x as [|c x]; [discriminate|].
    unfold isabs in *. rewrite startswith_slash_cons in Hx.
    destruct (negb (truthy (String c x)) || endswith_char sep (String c x));
      simpl; rewrite Hx; reflexivity. }
  rewrite (normpath_abs _ Hj), (normpath_abs _ Hx).
  rewrite (initial_slashes_join2 x "build" Hx eq_refl eq_refl).
  rewrite (norm_comps_join2 x "build" Hx eq_refl eq_refl eq_refl).
  change (norm_step (initial_slashes x) (norm_comps x) "build")
    with (norm_comps x ++ ["build"]).
  pose proof (norm_comps_plain x) as Hplain.
  rewrite (join2_relative _ "build" eq_refl).
  destruct (norm_comps x) as [|y l] eqn:E.
  - destruct (initial_slashes_abs _ Hx) as [-> | ->]; reflexivity.
  - rewrite join_snoc by discriminate.
    assert (He : endswith_char sep
                   (with_slashes (initial_slashes x) (PyStr.join "/" (y :: l))) = false).
    { unfold endswith_char.
      destruct (initial_slashes_abs _ Hx) as [-> | ->]; unfold with_slashes;
        rewrite last_char_app by (apply join_truthy; [discriminate|assumption]);
        apply join_endswith; (discriminate || assumption). }
    rewrite He.
    assert (Ht : truthy (with_slashes (initial_slashes x) (PyStr.join "/" (y :: l))) = true).
    { destruct (initial_slashes_abs _ Hx) as [-> | ->]; reflexivity. }
    rewrite Ht. simpl negb. simpl orb. cbv iota.
    destruct (initial_slashes_abs _ Hx) as [-> | ->]; unfold with_slashes;
      rewrite !append_assoc; reflexivity.
Qed.

Lemma endswith_app (a b : string) :
  truthy b = true -> endswith_char sep (a +:+ b) = endswith_char sep b.
Proof. intros Hb. unfold endswith_char. rewrite (last_char_app a b Hb). reflexivity. Qed.

Lemma startswith_slash_app (a b : string) :
  truthy a = true -> startswith "/" (a +:+ b) = startswith "/" a.
Proof. destruct a as [|c a]; [discriminate|]. intros _. simpl. reflexivity. Qed.

(** [join] is associative on relative parts. *)
Lemma join2_assoc_build (d arg : string) :
  truthy d = true -> isabs arg = false ->
  join2 d (join2 arg "build") = join2 (join2 d arg) "build".
Proof.
  intros Hd Harg. unfold isabs in Harg.
  rewrite (join2_relative arg "build" eq_refl).
  rewrite (join2_relative d arg Harg), Hd. simpl negb. simpl orb.
  destruct arg as [|c arg].
  - simpl negb. simpl orb. cbv iota. simpl String.append at 1.
    rewrite (join2_relative d "build" eq_refl), Hd. simpl negb. simpl orb.
    rewrite append_nil_r.
    destruct (endswith_char sep d) eqn:E.
    + rewrite (join2_relative d "build" eq_refl), Hd, E. reflexivity.
    + rewrite (join2_relative _ "build" eq_refl).
      change ("/" +:+ EmptyString) with "/".
      rewrite (endswith_app d "/" eq_refl).
      change (endswith_char sep "/") with true. rewrite orb_true_r.
      rewrite append_assoc. reflexivity.
  - change (negb (truthy (String c arg))) with false. simpl orb.
    set (a := String c arg) in *.
    assert (Ha : truthy a = true) by reflexivity.
    set (s := if endswith_char sep a then a +:+ "build" else a +:+ "/" +:+ "build").
    assert (Hs : startswith "/" s = false).
    { unfold s. destruct (endswith_char sep a); rewrite startswith_slash_app by exact Ha;
        exact Harg. }
    rewrite (join2_relative d s Hs), Hd. simpl negb. simpl orb.
    rewrite (join2_relative _ "build" eq_refl).
    assert (Hend : endswith_char sep (if endswith_char sep d then d +:+ a else d +:+ "/" +:+ a)
                   = endswith_char sep a).
    { destruct (endswith_char sep d); [apply endswith_app, Ha|].
      rewrite <- append_assoc. apply endswith_app, Ha. }
    rewrite Hend.
    assert (Ht : truthy (if endswith_char sep d then d +:+ a else d +:+ "/" +:+ a) = true).
    { destruct d; [discriminate|]. destruct (endswith_char sep (String _ _)); reflexivity. }
    rewrite Ht. simpl negb. simpl orb. unfold s.
    destruct (endswith_char sep d), (endswith_char sep a);
      rewrite ?append_assoc; reflexivity.
Qed.

Lemma join2_abs (x c : string) : isabs x = true -> isabs (join2 x c) = isabs c || true.
Proof.
  intros Hx. rewrite orb_true_r. unfold join2, isabs in *.
  destruct (startswith "/" c) eqn:E; [exact E|].
  pose proof (isabs_truthy x Hx) as Ht.
  destruct (negb (truthy x) || endswith_char sep x);
    rewrite startswith_slash_app by exact Ht; exact Hx.
Qed.

Lemma join2_build_isabs (arg : string) : isabs (join2 arg "build") = isabs arg.
Proof.
  rewrite (join2_relative arg "build" eq_refl). unfold isabs.
  destruct arg as [|c arg]; [reflexivity|].
  destruct (negb (truthy (String c arg)) || endswith_char sep (String c arg));
    apply startswith_slash_app; reflexivity.
Qed.

(** The 'build' directory of a path, taken before or after [abspath]. *)
Lemma abspath_join_build (d arg : string) :
  isabs d = true ->
  abspath d (join arg ["build"]) = join (abspath d arg) ["build"].
Proof.
  intros Hd. unfold abspath.
  change (join arg ["build"]) with (join2 arg "build").
  change (join ?x ["build"]) with (join2 x "build").
  change (join d [?y]) with (join2 d y).
  rewrite join2_build_isabs.
  destruct (isabs arg) eqn:Harg.
  - apply normpath_join_build, Harg.
  - rewrite (join2_assoc_build d arg (isabs_truthy d Hd) Harg).
    apply normpath_join_build. rewrite (join2_abs d arg Hd). apply orb_true_r.
Qed.
End Paths.


(** ** Environment Prober *)

Lemma flag_of_spec (v : string) : flag_of v = spec_flag_y v.
Proof.
  unfold flag_of, spec_flag_y, PyStr.mem, ci_match. simpl.
  change "ON" with (PyStr.upper "on"). change "1" with (PyStr.upper "1") at 1.
  change "YES" with (PyStr.upper "yes"). change "TRUE" with (PyStr.upper "true").
  change "Y" with (PyStr.upper "y").
  rewrite !upper_eqb_lower. reflexivity.
Qed.

(** C5, as the script has it: a flag whose value, or the default when the
    variable is unset, is a string of ASCII characters is true exactly when
    that value matches one of on, 1, yes, true, y without regard to case; the
    empty string and the default "0" give false.  Reading a flag changes
    nothing. *)
Theorem check_env_flag_spec (name default : string) (p : process) :
  PyStr.is_7bit (match environ p !! name with
                 | Some v => v
                 | None => default
                 end) = true ->
  _check_env_flag name default p
  = (Return (spec_flag_y (match environ p !! name with
                          | Some v => v
                          | None => default
                          end)), p)
  ∧ spec_flag_y EmptyString = false
  ∧ spec_flag_y "0" = false.
Proof.
  intros _.
  split; [|split; reflexivity].
  unfold _check_env_flag, bind, getenv_or, ret.
  rewrite flag_of_spec. reflexivity.
Qed.

Lemma check_env_flag_spec_witness :
  _check_env_flag "USE_SYCL" "0" (demo_process [("USE_SYCL", "Yes")])
  = (Return true, demo_process [("USE_SYCL", "Yes")])
  ∧ _check_env_flag "USE_SYCL" "0" (demo_process [("DEBUG", "Yes")])
    = (Return false, demo_process [("DEBUG", "Yes")]).
Proof.
  split.
  - exact (proj1 (check_env_flag_spec "USE_SYCL" "0"
                    (demo_process [("USE_SYCL", "Yes")]) eq_refl)).
  - exact (proj1 (check_env_flag_spec "USE_SYCL" "0"
                    (demo_process [("DEBUG", "Yes")]) eq_refl)).
Defined.

(** C5 as stated fails: DEBUG=y switches the debug build on, and "y" is none
    of on, 1, yes, true in any spelling. *)
Lemma check_env_flag_accepts_y :
  fst (_check_env_flag "DEBUG" EmptyString (demo_process [("DEBUG", "y")])) = Return true
  ∧ spec_flag "y" = false.
Proof. split; vm_compute; reflexivity. Qed.

Lemma mem_cpu_gpu (v : string) :
  PyStr.mem v ["cpu"; "gpu"] = String.eqb v "cpu" || String.eqb v "gpu".
Proof. unfold PyStr.mem. simpl. rewrite orb_false_r. reflexivity. Qed.




(** ** Version Resolver *)

Section Strip.
Import PyStr.

Lemma hex_not_space (c : ascii) : is_hex c = true -> isspace c = false.
Proof.
  intros H. apply negb_true_iff. revert H.
  generalize (forall_ascii (fun c => implb (is_hex c) (negb (isspace c)))).
  intros G. specialize (G ltac:(vm_compute; reflexivity) c).
  destruct (is_hex c); simpl in G; [auto|discriminate].
Qed.

Lemma hex_7bit (c : ascii) : is_hex c = true -> (nat_of_ascii c <? 128)%nat = true.
Proof.
  generalize (forall_ascii (fun c => implb (is_hex c) (nat_of_ascii c <? 128)%nat)).
  intros G H. specialize (G ltac:(vm_compute; reflexivity) c).
  rewrite H in G. exact G.
Qed.

Lemma lstrip_hex_line (c : ascii) (h : string) :
  is_hex c = true -> lstrip (String c h +:+ nl) = String c h +:+ nl.
Proof. intros Hc. simpl. rewrite (hex_not_space c Hc). reflexivity. Qed.

Lemma rstrip_hex_line (h : string) : all_hex h = true -> rstrip (h +:+ nl) = h.
Proof.
  induction h as [|c h IH]; [reflexivity|].
  simpl. intros [Hc Hh]%andb_true_iff.
  rewrite (IH Hh), (hex_not_space c Hc). destruct h; reflexivity.
Qed.

Lemma strip_hex_line (h : string) : all_hex h = true -> strip (h +:+ nl) = h.
Proof.
  intros H. unfold strip. destruct h as [|c h]; [reflexivity|].
  pose proof H as [Hc _]%andb_true_iff.
  rewrite (lstrip_hex_line c h Hc). apply rstrip_hex_line, H.
Qed.

Lemma is_7bit_hex_line (h : string) : all_hex h = true -> is_7bit (h +:+ nl) = true.
Proof.
  induction h as [|c h IH]; [reflexivity|].
  simpl. intros [Hc Hh]%andb_true_iff. rewrite (hex_7bit c Hc), (IH Hh). reflexivity.
Qed.

Lemma slice_to_length (n : nat) (s : string) :
  n <= String.length s -> String.length (slice_to n s) = n.
Proof.
  revert s. induction n as [|n IH]; intros [|c s]; simpl; try lia.
  intros H. rewrite IH; lia.
Qed.

Lemma slice_to_prefix (n : nat) (s : string) : exists rest, s = slice_to n s +:+ rest.
Proof.
  revert s. induction n as [|n IH]; intros s.
  - exists s. destruct s; reflexivity.
  - destruct s as [|c s]; [exists EmptyString; reflexivity|].
    destruct (IH s) as [rest Hr]. exists rest.
    change (String c s = String c (slice_to n s +:+ rest)). rewrite <- Hr. reflexivity.
Qed.
End Strip.

(** When git prints a hash and a newline, and there is no checkout above
    the project, [get_git_head_sha] gives that hash and an empty second one. *)
Lemma get_git_head_sha_resolved (w : World) (b h : string) (p : process) :
  run_child w git_rev_parse_HEAD (resolve (cwd p) b) (environ p) = Exited 0 (h +:+ nl) ->
  all_hex h = true ->
  path_isdir w (resolve (cwd p) (PosixPath.join b [".."; ".git"])) = false ->
  get_git_head_sha w b p
  = (Return (h, EmptyString),
     {| cwd := cwd p; environ := environ p;
        log := log p ++ [Spawn git_rev_parse_HEAD (resolve (cwd p) b) (environ p)] |}).
Proof.
  intros Hgit Hhex Hdir.
  unfold get_git_head_sha, check_output, spawn, bind, ret; cbn [cwd environ log].
  rewrite Hgit; cbn [Z.eqb].
  unfold decode_ascii. rewrite (is_7bit_hex_line h Hhex).
  unfold ret, os_path_isdir; cbn [cwd environ log]. rewrite Hdir.
  rewrite (strip_hex_line h Hhex). reflexivity.
Qed.

Lemma check_env_flag_versioned (p : process) :
  _check_env_flag "VERSIONED_IPEX_BUILD" "0" p
  = (Return (flag_on p "VERSIONED_IPEX_BUILD"), p).
Proof.
  unfold _check_env_flag, flag_on, bind, getenv_or, ret.
  destruct (environ p !! "VERSIONED_IPEX_BUILD"); reflexivity.
Qed.

(** [get_build_version] always returns: its handler has nothing to catch. *)
Lemma get_build_version_total (sha : string) (p : process) :
  get_build_version sha p
  = (Return (if flag_on p "VERSIONED_IPEX_BUILD"
             then base_version p +:+ "+" +:+ PyStr.slice_to 7 sha
             else base_version p), p).
Proof.
  cbv [get_build_version _check_env_flag flag_on base_version]. run_monad.
  destruct (environ p !! "VERSIONED_IPEX_BUILD") as [v|];
    [destruct (flag_of v) | ]; reflexivity.
Qed.

(** C8: with VERSIONED_IPEX_BUILD on and a 40-character hash at hand, the
    version is the base version, a plus sign and the first 7 characters of
    the hash. *)
Theorem build_version_suffix (h : string) (p : process) :
  String.length h = 40 ->
  flag_on p "VERSIONED_IPEX_BUILD" = true ->
  get_build_version h p
  = (Return (base_version p +:+ "+" +:+ PyStr.slice_to 7 h), p)
  ∧ String.length (PyStr.slice_to 7 h) = 7
  ∧ ∃ rest, h = PyStr.slice_to 7 h +:+ rest.
Proof.
  intros Hlen Hflag. split; [|split].
  - rewrite get_build_version_total, Hflag. reflexivity.
  - apply slice_to_length. lia.
  - apply slice_to_prefix.
Qed.

Lemma build_version_suffix_witness :
  String.length sha40 = 40
  ∧ flag_on (demo_process [("VERSIONED_IPEX_BUILD", "Yes")]) "VERSIONED_IPEX_BUILD" = true
  ∧ fst (get_build_version sha40 (demo_process [("VERSIONED_IPEX_BUILD", "Yes")]))
    = Return "1.0.0+0123456".
Proof.
  split; [reflexivity|]. split; [vm_compute; reflexivity|].
  destruct (build_version_suffix sha40 (demo_process [("VERSIONED_IPEX_BUILD", "Yes")]))
    as [H _]; [reflexivity | vm_compute; reflexivity |].
  rewrite H. vm_compute. reflexivity.
Defined.

(** Lines 221 and 222 of the script together: from what git prints to the
    version. *)
Lemma version_from_git (w : World) (b h : string) (p : process) :
  run_child w git_rev_parse_HEAD (resolve (cwd p) b) (environ p) = Exited 0 (h +:+ nl) ->
  all_hex h = true ->
  path_isdir w (resolve (cwd p) (PosixPath.join b [".."; ".git"])) = false ->
  flag_on p "VERSIONED_IPEX_BUILD" = true ->
  fst ((do shas <- get_git_head_sha w b; get_build_version (fst shas)) p)
  = Return (base_version p +:+ "+" +:+ PyStr.slice_to 7 h).
Proof.
  intros Hgit Hhex Hdir Hflag. unfold bind.
  rewrite (get_git_head_sha_resolved w b h p Hgit Hhex Hdir).
  rewrite get_build_version_total. cbn [fst].
  unfold flag_on, base_version in *. cbn [environ]. rewrite Hflag. reflexivity.
Qed.

(** C2 fails on the script: the hash is fetched at module level, outside
    the handler of [get_build_version].  When git ends with a non-zero
    status the script stops there with [CalledProcessError], whatever
    VERSIONED_IPEX_BUILD holds: no version is resolved, nothing is written. *)
Theorem git_failure_is_fatal (w : World) (p : process) (code : Z) (out : string) :
  run_child w git_rev_parse_HEAD
    (resolve (cwd p) (base_dir (module_globals w (cwd p)))) (environ p)
  = Exited code out ->
  code ≠ 0%Z ->
  setup_py_build_ext w p
  = (Raise (CalledProcessError code git_rev_parse_HEAD),
     {| cwd := cwd p; environ := environ p;
        log := log p ++ [Spawn git_rev_parse_HEAD
                           (resolve (cwd p) (base_dir (module_globals w (cwd p))))
                           (environ p)] |}).
Proof.
  intros Hgit Hcode.
  unfold setup_py_build_ext, bind at 1. unfold get at 1.
  unfold bind at 1. unfold get_git_head_sha, bind at 1.
  unfold check_output, bind at 1. unfold spawn; cbn [cwd environ log].
  rewrite Hgit. apply Z.eqb_neq in Hcode. rewrite Hcode. reflexivity.
Qed.

(** The same when git cannot be started at all. *)
Lemma git_missing_is_fatal (w : World) (p : process) (what : string) :
  run_child w git_rev_parse_HEAD
    (resolve (cwd p) (base_dir (module_globals w (cwd p)))) (environ p)
  = NotStarted what ->
  fst (setup_py_build_ext w p) = Raise (OSError what).
Proof.
  intros Hgit.
  unfold setup_py_build_ext, bind at 1. unfold get at 1.
  unfold bind at 1. unfold get_git_head_sha, bind at 1.
  unfold check_output, bind at 1. unfold spawn; cbn [cwd environ log].
  rewrite Hgit. reflexivity.
Qed.

Lemma git_failure_is_fatal_witness :
  fst (setup_py_build_ext (demo_world 128 0)
         (demo_process [("VERSIONED_IPEX_BUILD", "1")]))
  = Raise (CalledProcessError 128 git_rev_parse_HEAD).
Proof.
  rewrite (git_failure_is_fatal (demo_world 128 0)
             (demo_process [("VERSIONED_IPEX_BUILD", "1")]) 128 EmptyString);
    [reflexivity | reflexivity | lia].
Defined.

(** ** Code Generator Invoker *)

(** What [generate_ipex_cpu_aten_code] does when the sparse generator fails. *)
Lemma generate_code_sparse_failure (w : World) (g : globals) (p : process)
    (code : Z) (out : string) :
  getcwd_ok (cwd p) ->
  can_chdir w (PosixPath.abspath (cwd p) (scripts_cpu_dir g)) = true ->
  can_chdir w (cwd p) = true ->
  run_child w (gen_sparse_cmd g) (PosixPath.abspath (cwd p) (scripts_cpu_dir g)) (environ p)
  = Exited code out ->
  code ≠ 0%Z ->
  generate_ipex_cpu_aten_code w g p
  = (SysExit 1,
     {| cwd := cwd p; environ := environ p;
        log := log p ++
          [Chdir (scripts_cpu_dir g);
           Spawn (gen_sparse_cmd g) (PosixPath.abspath (cwd p) (scripts_cpu_dir g)) (environ p);
           PrintFailedToRun (gen_sparse_cmd g);
           Chdir (cwd p)] |}).
Proof.
  intros Hcwd Hin Hback Hrun Hcode.
  cbv [generate_ipex_cpu_aten_code bind get chdir subprocess_call spawn ret emit
       sys_exit raise]; cbn [cwd environ log].
  rewrite (abspath_curdir (cwd p) Hcwd).
  fold (scripts_cpu_dir g).
  rewrite Hin; cbn [cwd environ log]. rewrite Hrun.
  apply Z.eqb_neq in Hcode. rewrite Hcode; cbn [negb cwd environ log].
  destruct Hcwd as [Habs Hnorm].
  rewrite (abspath_of_abs _ (cwd p) Habs), Hnorm, Hback; cbn [cwd environ log].
  rewrite <- !app_assoc. reflexivity.
Qed.

(** C6: when the sparse generator ends with a non-zero status, the process
    exits with status 1, back in the directory it started from, and the only
    child it has started is the sparse generator: the dense one is not run. *)
Theorem sparse_failure_stops_generation (w : World) (g : globals) (p : process)
    (code : Z) (out : string) :
  getcwd_ok (cwd p) ->
  can_chdir w (PosixPath.abspath (cwd p) (scripts_cpu_dir g)) = true ->
  can_chdir w (cwd p) = true ->
  run_child w (gen_sparse_cmd g) (PosixPath.abspath (cwd p) (scripts_cpu_dir g)) (environ p)
  = Exited code out ->
  code ≠ 0%Z ->
  ∃ evs,
    generate_ipex_cpu_aten_code w g p
    = (SysExit 1, {| cwd := cwd p; environ := environ p; log := log p ++ evs |})
    ∧ 1%Z ≠ 0%Z
    ∧ spawned evs = [gen_sparse_cmd g]
    ∧ ¬ In (gen_dense_cmd g) (spawned evs).
Proof.
  intros Hcwd Hin Hback Hrun Hcode.
  eexists. split; [|split; [|split]].
  - apply (generate_code_sparse_failure w g p code out); assumption.
  - lia.
  - reflexivity.
  - unfold spawned, gen_dense_cmd, gen_sparse_cmd. simpl. intros [H|[]]. discriminate H.
Qed.

Lemma sparse_failure_stops_generation_witness :
  ∃ evs,
    generate_ipex_cpu_aten_code (demo_world 0 2) demo_globals (demo_process [])
    = (SysExit 1, {| cwd := "/w/ipex"; environ := ∅; log := [] ++ evs |})
    ∧ 1%Z ≠ 0%Z
    ∧ spawned evs = [gen_sparse_cmd demo_globals]
    ∧ ¬ In (gen_dense_cmd demo_globals) (spawned evs).
Proof.
  apply (sparse_failure_stops_generation (demo_world 0 2) demo_globals
           (demo_process []) 2 EmptyString).
  - split; reflexivity.
  - reflexivity.
  - reflexivity.
  - reflexivity.
  - lia.
Defined.

(** The build hook ends the same way: nothing is configured or compiled. *)
Lemma sparse_failure_stops_build (w : World) (g : globals) (self : IPEXBuild)
    (p : process) (code : Z) (out : string) :
  getcwd_ok (cwd p) ->
  can_chdir w (PosixPath.abspath (cwd p) (scripts_cpu_dir g)) = true ->
  can_chdir w (cwd p) = true ->
  run_child w (gen_sparse_cmd g) (PosixPath.abspath (cwd p) (scripts_cpu_dir g)) (environ p)
  = Exited code out ->
  code ≠ 0%Z ->
  fst (IPEXBuild_run w g self p) = SysExit 1
  ∧ cwd (snd (IPEXBuild_run w g self p)) = cwd p
  ∧ spawned (log (snd (IPEXBuild_run w g self p)))
    = spawned (log p) ++ [gen_sparse_cmd g].
Proof.
  intros Hcwd Hin Hback Hrun Hcode.
  set (p1 := {| cwd := cwd p; environ := environ p; log := log p ++ [Print stdout "run"] |}).
  assert (E : IPEXBuild_run w g self p
              = (SysExit 1, snd (generate_ipex_cpu_aten_code w g p1))).
  { unfold IPEXBuild_run. unfold bind at 1. unfold print, emit. fold p1. unfold bind at 1.
    rewrite (generate_code_sparse_failure w g p1 code out Hcwd Hin Hback Hrun Hcode).
    reflexivity. }
  rewrite E.
  rewrite (generate_code_sparse_failure w g p1 code out Hcwd Hin Hback Hrun Hcode).
  subst p1. cbn [fst snd cwd environ log]. repeat split.
  unfold spawned. rewrite !omap_app. simpl. rewrite app_nil_r. reflexivity.
Qed.

(** ** Native Build Orchestrator *)

(** The first thing [build_extension] starts, with cmake known and the
    build directory in place: the build coordinator, in the environment as
    it was before the call.  What the call leaves in [os.environ] is another
    matter. *)
Lemma build_extension_configure (w : World) (g : globals) (self : IPEXBuild)
    (ext : IPEXExt) (p : process) (c : string) :
  cmake self = Some c ->
  path_exists w (resolve (cwd p) (build_dir ext)) = true ->
  ∃ rest,
    log (snd (build_extension w g self ext p))
    = log p ++
      Spawn (configure_argv w g p c ext (install_dir w p ext))
        (resolve (cwd p) (build_dir ext)) (environ p) :: rest
    ∧ environ (snd (build_extension w g self ext p))
      = if flag_on p "USE_SYCL" then <["CXX" := "compute++"]> (environ p) else environ p.
Proof.
  intros Hcmake Hthere.
  cbv [build_extension bind get ret os_path_exists os_mkdir _check_env_flag getenv_or
       setenv self_cmake check_call spawn raise]; cbn [cwd environ log].
  rewrite Hthere, Hcmake; cbn [negb cwd environ log].
  unfold configure_argv, install_dir, flag_on.
  destruct (py_is w (name ext) "torch_ipex");
  destruct (flag_of match environ p !! "DEBUG" with Some v => v | None => EmptyString end);
  destruct (flag_of match environ p !! "USE_SYCL" with Some v => v | None => EmptyString end);
  destruct (flag_of match environ p !! "DPCPP_ENABLE_PROFILING" with
                    | Some v => v | None => EmptyString end);
  destruct (flag_of match environ p !! "USE_NINJA" with Some v => v | None => EmptyString end);
  cbn [cwd environ log app andb];
  repeat match goal with
         | |- context [match run_child ?w ?a ?d ?e with _ => _ end] =>
             destruct (run_child w a d e) as [[] ?|?]; cbn [Z.eqb cwd environ log]
         end;
  eexists; (split; [cbn [snd log]; rewrite <- ?app_assoc; reflexivity | reflexivity]).
Qed.

(** The extension the script declares is not named 'torch_ipex': its
    install location is the directory setuptools gives. *)
Lemma install_dir_declared (w : World) (p : process) (ext : IPEXExt) :
  name ext = "_torch_ipex" ->
  install_dir w p ext
  = PosixPath.abspath (cwd p) (PosixPath.dirname (get_ext_fullpath w "_torch_ipex")).
Proof. intros H. unfold install_dir. rewrite H. reflexivity. Qed.

(** C3 fails on the script: the declared extension is named '_torch_ipex',
    the test is for 'torch_ipex', so its install prefix and library output
    directory are the directory setuptools gives, with nothing appended,
    whether USE_SYCL is on or off. *)
Theorem primary_module_install_dir (w : World) (g : globals) (self : IPEXBuild)
    (ext : IPEXExt) (p : process) (c : string) :
  name ext = "_torch_ipex" ->
  cmake self = Some c ->
  path_exists w (resolve (cwd p) (build_dir ext)) = true ->
  ∃ argv dir env rest,
    log (snd (build_extension w g self ext p)) = log p ++ Spawn argv dir env :: rest
    ∧ argv = configure_argv w g p c ext
               (PosixPath.abspath (cwd p)
                  (PosixPath.dirname (get_ext_fullpath w "_torch_ipex")))
    ∧ In ("-DCMAKE_INSTALL_PREFIX=" +:+
          PosixPath.abspath (cwd p) (PosixPath.dirname (get_ext_fullpath w "_torch_ipex")))
         argv
    ∧ In ("-DCMAKE_LIBRARY_OUTPUT_DIRECTORY=" +:+
          PosixPath.abspath (cwd p) (PosixPath.dirname (get_ext_fullpath w "_torch_ipex")))
         argv.
Proof.
  intros Hname Hcmake Hthere.
  destruct (build_extension_configure w g self ext p c Hcmake Hthere) as [rest [Hlog _]].
  rewrite (install_dir_declared w p ext Hname) in Hlog.
  eexists _, _, _, rest. split; [exact Hlog|]. split; [reflexivity|].
  unfold configure_argv, configure_args. cbn [app In]. auto 10.
Qed.

Lemma primary_module_install_dir_witness :
  ∃ argv dir env rest,
    log (snd (build_extension (demo_world 0 0) demo_globals
                {| extensions := [demo_ext]; cmake := Some "/usr/bin/cmake" |}
                demo_ext (demo_process [("USE_SYCL", "1")])))
    = [] ++ Spawn argv dir env :: rest
    ∧ argv = ["/usr/bin/cmake"; "/w/ipex";
              "-DCMAKE_BUILD_TYPE=Release";
              "-DPYTORCH_INSTALL_DIR=/opt/torch";
              "-DPYTHON_EXECUTABLE=/usr/bin/python3";
              "-DCMAKE_INSTALL_PREFIX=/w/ipex/build/lib";
              "-DCMAKE_LIBRARY_OUTPUT_DIRECTORY=/w/ipex/build/lib";
              "-DPYTHON_INCLUDE_DIR=/usr/include/python3";
              "-DUSE_SYCL=1"]
    ∧ In "-DCMAKE_INSTALL_PREFIX=/w/ipex/build/lib" argv
    ∧ In "-DCMAKE_LIBRARY_OUTPUT_DIRECTORY=/w/ipex/build/lib" argv.
Proof.
  apply (primary_module_install_dir (demo_world 0 0) demo_globals
           {| extensions := [demo_ext]; cmake := Some "/usr/bin/cmake" |}
           demo_ext (demo_process [("USE_SYCL", "1")]) "/usr/bin/cmake");
    reflexivity.
Defined.

(** C4 fails on the script: [env] is copied from [os.environ] before CXX is
    assigned, and the copy is what the build coordinator is run with.  With
    USE_SYCL on, the coordinator's environment is the one the call started
    with; 'compute++' is in [os.environ] only, after the call. *)
Theorem configure_env_is_stale (w : World) (g : globals) (self : IPEXBuild)
    (ext : IPEXExt) (p : process) (c : string) :
  cmake self = Some c ->
  path_exists w (resolve (cwd p) (build_dir ext)) = true ->
  flag_on p "USE_SYCL" = true ->
  ∃ argv dir env rest,
    log (snd (build_extension w g self ext p)) = log p ++ Spawn argv dir env :: rest
    ∧ head argv = Some c
    ∧ env = environ p
    ∧ environ (snd (build_extension w g self ext p)) !! "CXX" = Some "compute++".
Proof.
  intros Hcmake Hthere Hsycl.
  destruct (build_extension_configure w g self ext p c Hcmake Hthere) as [rest [Hlog Henv]].
  eexists _, _, _, rest. split; [exact Hlog|]. split; [reflexivity|]. split; [reflexivity|].
  rewrite Henv, Hsycl. apply lookup_insert_eq.
Qed.

Lemma configure_env_is_stale_witness :
  ∃ argv dir env rest,
    log (snd (build_extension (demo_world 0 0) demo_globals
                {| extensions := [demo_ext]; cmake := Some "/usr/bin/cmake" |}
                demo_ext (demo_process [("USE_SYCL", "1")])))
    = [] ++ Spawn argv dir env :: rest
    ∧ head argv = Some "/usr/bin/cmake"
    ∧ env = <["USE_SYCL" := "1"]> ∅
    ∧ environ (snd (build_extension (demo_world 0 0) demo_globals
                      {| extensions := [demo_ext]; cmake := Some "/usr/bin/cmake" |}
                      demo_ext (demo_process [("USE_SYCL", "1")]))) !! "CXX"
      = Some "compute++".
Proof.
  apply (configure_env_is_stale (demo_world 0 0) demo_globals
           {| extensions := [demo_ext]; cmake := Some "/usr/bin/cmake" |}
           demo_ext (demo_process [("USE_SYCL", "1")]) "/usr/bin/cmake");
    reflexivity.
Defined.

(** On the demo run the coordinator sees no CXX at all. *)
Example configure_env_demo :
  (<["USE_SYCL" := "1"]> ∅ : gmap string string) !! "CXX" = None.
Proof. reflexivity. Qed.

(** ** Clean hook *)

Section CleanHook.
Import PyStr IPEXClean.
Context {FS : Type}.
Variable glob : FS -> string -> list string.
Variable os_remove : FS -> string -> option FS.
Variable rmtree : FS -> string -> FS.
Variable base_clean_run : FS -> FS.

Abbreviation loop := (clean_loop glob os_remove rmtree).
Abbreviation remove := (remove_entry os_remove rmtree).

Lemma marker_is_comment (l : string) : startswith marker l = true -> startswith "#" l = true.
Proof.
  destruct l as [|c l]; [discriminate|]. unfold marker. simpl.
  intros [H _]%andb_true_iff. rewrite H. reflexivity.
Qed.

Lemma pat_match_marker (l : string) :
  startswith marker l = true -> pat_match l = Some (Some " BEGIN NOT-CLEAN-FILES ").
Proof. intros H. unfold pat_match. rewrite (marker_is_comment l H), H. reflexivity. Qed.

#[local] Arguments PyStr.startswith : simpl never.

Lemma clean_loop_marker (m : string) (rest : list string) (st : FS * list clean_event) :
  startswith marker m = true -> loop (m :: rest) st = st.
Proof. intros H. simpl. rewrite (pat_match_marker m H). reflexivity. Qed.

Lemma clean_loop_cons (l : string) (rest : list string) (st : FS * list clean_event) :
  startswith marker l = false -> loop (l :: rest) st = loop rest (loop [l] st).
Proof.
  intros H. simpl. unfold pat_match. rewrite H.
  destruct (startswith "#" l); reflexivity.
Qed.

Lemma clean_loop_app (before rest : list string) (st : FS * list clean_event) :
  loop (before ++ rest) st
  = if existsb (startswith marker) before then loop before st
    else loop rest (loop before st).
Proof.
  revert st. induction before as [|l before IH]; intros st; [reflexivity|].
  cbn [app existsb]. destruct (startswith marker l) eqn:E; cbn [orb].
  - rewrite !(clean_loop_marker l _ st E). reflexivity.
  - rewrite (clean_loop_cons l (before ++ rest) st E), (clean_loop_cons l before st E).
    apply IH.
Qed.

Lemma remove_entry_log (st : FS * list clean_event) (f : string) :
  ∃ e, snd (remove st f) = snd st ++ [e] ∧ globbed [e] = [] ∧ deleted [e] = [f].
Proof.
  unfold remove_entry. destruct (os_remove (fst st) f); eexists; repeat split.
Qed.

Lemma remove_entries_log (found : list string) (st : FS * list clean_event) :
  ∃ evs, snd (fold_left remove found st) = snd st ++ evs
         ∧ globbed evs = [] ∧ deleted evs = found.
Proof.
  revert st. induction found as [|f found IH]; intros st; simpl.
  - exists []. rewrite app_nil_r. auto.
  - destruct (IH (remove st f)) as [evs [H1 [H2 H3]]].
    destruct (remove_entry_log st f) as [e [He1 [He2 He3]]].
    exists (e :: evs). rewrite H1, He1, <- app_assoc. split; [reflexivity|].
    change (e :: evs) with ([e] ++ evs). unfold globbed, deleted in *.
    rewrite !omap_app, H2, H3, He2, He3. auto.
Qed.

(** The wildcards the loop expands: the lines before the first marker line
    that do not begin with '#'. *)
Lemma clean_loop_globbed (lines : list string) (st : FS * list clean_event) :
  globbed (snd (loop lines st))
  = globbed (snd st)
    ++ filter (fun l => startswith "#" l = false) (before_marker lines).
Proof.
  revert st. induction lines as [|l lines IH]; intros st; simpl.
  - rewrite app_nil_r. reflexivity.
  - unfold pat_match. destruct (startswith marker l) eqn:Em.
    + rewrite (marker_is_comment l Em). simpl. rewrite app_nil_r. reflexivity.
    + destruct (startswith "#" l) eqn:Ec; simpl.
      * rewrite IH, filter_cons_False by congruence. reflexivity.
      * rewrite IH, filter_cons_True by assumption.
        destruct (remove_entries_log (glob (fst st) l)
                    (fst st, snd st ++ [Globbed l (glob (fst st) l)]))
          as [evs [-> [Hg _]]].
        cbn [snd]. unfold globbed in *. rewrite !omap_app, Hg. simpl.
        rewrite app_nil_r, <- app_assoc. reflexivity.
Qed.



Lemma before_marker_no_marker (lines : list string) :
  existsb (startswith marker) lines = false -> before_marker lines = lines.
Proof.
  induction lines as [|l lines IH]; simpl; [reflexivity|].
  intros [Hl Hr]%orb_false_iff. rewrite Hl, (IH Hr). reflexivity.
Qed.


Lemma before_marker_subset (lines : list string) (l : string) :
  In l (before_marker lines) -> In l lines.
Proof.
  induction lines as [|x lines IH]; simpl; [auto|].
  destruct (startswith marker x); simpl; [contradiction|]. intros [H|H]; auto.
Qed.

Lemma before_marker_filter (lines : list string) :
  before_marker (filter (fun l => truthy l = true) lines)
  = filter (fun l => truthy l = true) (before_marker lines).
Proof.
  induction lines as [|x lines IH]; [reflexivity|].
  destruct (truthy x) eqn:Ex.
  - rewrite filter_cons_True by assumption. simpl.
    destruct (startswith marker x); [reflexivity|].
    rewrite filter_cons_True by assumption. rewrite IH. reflexivity.
  - rewrite filter_cons_False by congruence. rewrite IH. simpl.
    destruct x; [|discriminate]. simpl.
    rewrite filter_cons_False by (simpl; congruence). reflexivity.
Qed.

Lemma filter_pattern (lines : list string) :
  filter (fun l => startswith "#" l = false) (filter (fun l => truthy l = true) lines)
  = filter (fun l => is_pattern l = true) lines.
Proof.
  induction lines as [|x lines IH]; [reflexivity|]. unfold is_pattern in *.
  destruct (truthy x) eqn:Ex.
  - rewrite (filter_cons_True (λ l, truthy l = true)) by assumption.
    destruct (startswith "#" x) eqn:Ec.
    + rewrite !filter_cons_False; [exact IH | rewrite Ex, Ec; simpl; congruence | congruence].
    + rewrite !filter_cons_True; [rewrite IH; reflexivity | rewrite Ex, Ec; reflexivity | assumption].
  - rewrite !filter_cons_False; [exact IH | rewrite Ex; simpl; congruence | congruence].
Qed.

(** The wildcards one run of the hook expands. *)
Lemma run_globbed (ignores : string) (fs : FS) :
  globbed (snd (snd (run glob os_remove rmtree base_clean_run (Some ignores) fs)))
  = filter (fun l => is_pattern l = true) (before_marker (split "010" ignores)).
Proof.
  unfold run, ignore_lines. cbn [snd]. rewrite clean_loop_globbed. cbn [snd globbed omap app].
  change (omap _ []) with (@nil string). cbn [app].
  rewrite before_marker_filter. apply filter_pattern.
Qed.


End CleanHook.




(** C9, as the script has it: the loop stops at a line that begins with
    '# BEGIN NOT-CLEAN-FILES ' and at no other line; the same words without
    the space after them are a comment like any other; and no wildcard the
    hook expands is empty or begins with '#'. *)
Theorem clean_marker_and_comments {FS : Type}
    (glob : FS -> string -> list string) (os_remove : FS -> string -> option FS)
    (rmtree : FS -> string -> FS) (base_clean_run : FS -> FS) :
  (∀ more rest st,
     IPEXClean.clean_loop glob os_remove rmtree
       (("# BEGIN NOT-CLEAN-FILES " +:+ more) :: rest) st = st)
  ∧ (∀ before rest st,
       IPEXClean.clean_loop glob os_remove rmtree (before ++ rest) st
       = if existsb (PyStr.startswith "# BEGIN NOT-CLEAN-FILES ") before
         then IPEXClean.clean_loop glob os_remove rmtree before st
         else IPEXClean.clean_loop glob os_remove rmtree rest
                (IPEXClean.clean_loop glob os_remove rmtree before st))
  ∧ (∀ rest st,
       IPEXClean.clean_loop glob os_remove rmtree ("# BEGIN NOT-CLEAN-FILES" :: rest) st
       = IPEXClean.clean_loop glob os_remove rmtree rest st)
  ∧ (∀ ignores fs,
       Forall (fun wc => wc ≠ EmptyString ∧ PyStr.startswith "#" wc = false)
         (IPEXClean.globbed
            (snd (snd (IPEXClean.run glob os_remove rmtree base_clean_run
                         (Some ignores) fs))))).
Proof.
  split; [|split; [|split]].
  - intros more rest st. apply clean_loop_marker. reflexivity.
  - intros before rest st. apply clean_loop_app.
  - intros rest st. reflexivity.
  - intros ignores fs. rewrite run_globbed. apply Forall_forall. intros wc Hwc.
    apply list_elem_of_filter in Hwc. destruct Hwc as [Hp _].
    unfold is_pattern in Hp. apply andb_true_iff in Hp. destruct Hp as [Ht Hc].
    split; [intros ->; discriminate|]. apply negb_true_iff, Hc.
Qed.

(** C9 as stated fails for a blank line that is not empty: a line of one
    space is handed to glob, and the entry of that name is deleted. *)
Lemma clean_expands_blank_line :
  blank " " = true
  ∧ FlatDir.run (Some (" " +:+ nl)) [" "; "a.txt"]
    = (Return tt, (["a.txt"], [Globbed " " [" "]; Removed " "])).
Proof. split; vm_compute; reflexivity. Qed.

(** ** Extension Descriptor *)

(** The build hook hands back the extensions it was given. *)
Lemma IPEXBuild_run_extensions (w : World) (g : globals) (self : IPEXBuild) (p : process) :
  match fst (IPEXBuild_run w g self p) with
  | Return self' => extensions self' = extensions self
  | _ => True
  end.
Proof.
  cbv [IPEXBuild_run bind print emit ret raise].
  destruct (generate_ipex_cpu_aten_code w g _) as [[[]| |] p1]; cbn [fst]; try exact I.
  destruct (match find_executable w "cmake3" with
            | Some c => if PyStr.truthy c then Some c else find_executable w "cmake"
            | None => find_executable w "cmake"
            end) as [c|]; cbn [fst]; [|exact I].
  destruct (String.eqb (platform_system w) "Windows"); cbn [fst]; [exact I|].
  destruct (build_extensions w g _ _ p1) as [[[]| |] p2]; cbn [fst]; try exact I.
  reflexivity.
Qed.

(** C10, as the script has it: a descriptor is made with no sources, with
    [project_dir] the absolute form of the directory given and [build_dir]
    the 'build' entry of the directory as given, relative when that is
    relative, so that [build_dir], read in the working directory of the
    moment, is the 'build' subdirectory of [project_dir]; and a run of the
    build hook leaves the descriptors as they are. *)
Theorem IPEXExt_fields (getcwd nm arg : string) :
  PosixPath.isabs getcwd = true ->
  sources (IPEXExt__init__ getcwd nm arg) = []
  ∧ project_dir (IPEXExt__init__ getcwd nm arg) = PosixPath.abspath getcwd arg
  ∧ build_dir (IPEXExt__init__ getcwd nm arg) = PosixPath.join arg ["build"]
  ∧ PosixPath.isabs (build_dir (IPEXExt__init__ getcwd nm arg)) = PosixPath.isabs arg
  ∧ PosixPath.abspath getcwd (build_dir (IPEXExt__init__ getcwd nm arg))
    = PosixPath.join (project_dir (IPEXExt__init__ getcwd nm arg)) ["build"]
  ∧ ∀ w g self p,
      match fst (IPEXBuild_run w g self p) with
      | Return self' => extensions self' = extensions self
      | _ => True
      end.
Proof.
  intros Hcwd. repeat split.
  - apply join2_build_isabs.
  - cbn [build_dir project_dir IPEXExt__init__]. apply abspath_join_build, Hcwd.
  - apply IPEXBuild_run_extensions.
Qed.

Lemma IPEXExt_fields_witness :
  sources demo_ext = []
  ∧ project_dir demo_ext = "/w/ipex"
  ∧ build_dir demo_ext = "build"
  ∧ PosixPath.isabs (build_dir demo_ext) = false
  ∧ PosixPath.abspath "/w/ipex" (build_dir demo_ext) = "/w/ipex/build"
  ∧ ∀ w g self p,
      match fst (IPEXBuild_run w g self p) with
      | Return self' => extensions self' = extensions self
      | _ => True
      end.
Proof.
  exact (IPEXExt_fields "/w/ipex" "_torch_ipex" (PosixPath.dirname "setup.py") eq_refl).
Defined.

(** C10 as stated fails: run as [python setup.py], the script declares a
    descriptor whose [build_dir] is the relative 'build', which is not the
    path of the 'build' subdirectory of its [project_dir]. *)
Lemma IPEXExt_build_dir_is_relative :
  build_dir demo_ext = "build"
  ∧ PosixPath.join (project_dir demo_ext) ["build"] = "/w/ipex/build"
  ∧ build_dir demo_ext ≠ PosixPath.join (project_dir demo_ext) ["build"].
Proof. repeat split. intros H. vm_compute in H. discriminate H. Qed.

(** * Further properties of the script *)

(** ** Environment Prober *)

(** X1: A flag does not depend on the case its value is written in. *)
Theorem check_env_flag_ignores_case (name default v v' : string) (p : process) :
  ci_match v v' = true ->
  fst (_check_env_flag name default
         {| cwd := cwd p; environ := <[name := v]> (environ p); log := log p |})
  = fst (_check_env_flag name default
           {| cwd := cwd p; environ := <[name := v']> (environ p); log := log p |}).
Proof.
  intros Hci. unfold ci_match in Hci. apply String.eqb_eq in Hci.
  cbv [_check_env_flag bind getenv_or ret]; cbn [fst environ].
  rewrite !lookup_insert_eq, !flag_of_spec.
  unfold spec_flag_y, ci_match. rewrite Hci. reflexivity.
Qed.

Lemma check_env_flag_ignores_case_witness :
  fst (_check_env_flag "USE_NINJA" EmptyString
         {| cwd := "/w"; environ := <["USE_NINJA" := "tRuE"]> ∅; log := [] |})
  = fst (_check_env_flag "USE_NINJA" EmptyString
           {| cwd := "/w"; environ := <["USE_NINJA" := "True"]> ∅; log := [] |}).
Proof.
  exact (check_env_flag_ignores_case "USE_NINJA" EmptyString "tRuE" "True"
           {| cwd := "/w"; environ := ∅; log := [] |} eq_refl).
Defined.

(** X2: Whatever [_get_env_backend] returns is one of the two backends, and a
    call that returns has printed nothing and changed nothing. *)
Theorem get_env_backend_returns_option (p q : process) (v : string) :
  _get_env_backend p = (Return v, q) ->
  (v = "cpu" ∨ v = "gpu") ∧ q = p.
Proof.
  cbv [_get_env_backend bind getenv ret print emit sys_exit].
  destruct (environ p !! "IPEX_BACKEND") as [val|].
  - destruct (String.eqb (PyStr.strip val) EmptyString).
    + intros [= <- <-]. auto.
    + rewrite mem_cpu_gpu.
      destruct (String.eqb val "cpu") eqn:Ec; cbn [orb negb].
      * apply String.eqb_eq in Ec. intros [= <- <-]. auto.
      * destruct (String.eqb val "gpu") eqn:Eg; cbn [negb].
        -- apply String.eqb_eq in Eg. intros [= <- <-]. auto.
        -- discriminate.
  - intros [= <- <-]. auto.
Qed.

Lemma get_env_backend_returns_option_witness :
  ("gpu" = "cpu" ∨ "gpu" = "gpu")
  ∧ demo_process [("IPEX_BACKEND", "gpu")] = demo_process [("IPEX_BACKEND", "gpu")].
Proof.
  apply (get_env_backend_returns_option (demo_process [("IPEX_BACKEND", "gpu")])
           (demo_process [("IPEX_BACKEND", "gpu")]) "gpu").
  reflexivity.
Defined.

(** X3: White space around a backend name is not trimmed away: a value that is
    not blank and is not exactly one of the two names is fatal even when
    trimming it would give one. *)
Theorem get_env_backend_does_not_trim (p : process) (val : string) :
  environ p !! "IPEX_BACKEND" = Some val ->
  PyStr.strip val ≠ EmptyString ->
  PyStr.strip val ≠ val ->
  PyStr.mem (PyStr.strip val) ["cpu"; "gpu"] = true ->
  fst (_get_env_backend p) = SysExit 1.
Proof.
  intros Hval Hblank Htrim Hmem.
  cbv [_get_env_backend bind getenv ret print emit sys_exit]. rewrite Hval.
  apply String.eqb_neq in Hblank. rewrite Hblank.
  rewrite mem_cpu_gpu in *.
  destruct (String.eqb val "cpu") eqn:Ec.
  { apply String.eqb_eq in Ec. subst val. exfalso. apply Htrim. reflexivity. }
  destruct (String.eqb val "gpu") eqn:Eg.
  { apply String.eqb_eq in Eg. subst val. exfalso. apply Htrim. reflexivity. }
  reflexivity.
Qed.

Lemma get_env_backend_does_not_trim_witness :
  fst (_get_env_backend (demo_process [("IPEX_BACKEND", " gpu")])) = SysExit 1.
Proof.
  apply (get_env_backend_does_not_trim (demo_process [("IPEX_BACKEND", " gpu")]) " gpu").
  - reflexivity.
  - discriminate.
  - discriminate.
  - reflexivity.
Defined.

(** ** Version Resolver and Version File Emitter *)

(** X4: Without VERSIONED_IPEX_BUILD the version is the base version, whatever
    the hash is. *)
Theorem build_version_unsuffixed (sha : string) (p : process) :
  flag_on p "VERSIONED_IPEX_BUILD" = false ->
  get_build_version sha p = (Return (base_version p), p).
Proof.
  intros H. rewrite get_build_version_total, H. reflexivity.
Qed.

Lemma build_version_unsuffixed_witness :
  get_build_version sha40 (demo_process [("TORCH_IPEX_VERSION", "1.2.0")])
  = (Return "1.2.0", demo_process [("TORCH_IPEX_VERSION", "1.2.0")]).
Proof.
  apply (build_version_unsuffixed sha40 (demo_process [("TORCH_IPEX_VERSION", "1.2.0")])).
  reflexivity.
Defined.

Lemma slice_to_short (n : nat) (s : string) : String.length s <= n -> PyStr.slice_to n s = s.
Proof.
  revert s. induction n as [|n IH]; intros [|c s]; simpl; try reflexivity; try lia.
  intros H. rewrite IH by lia. reflexivity.
Qed.

(** X5: A hash of fewer than 7 characters is appended whole: slicing does not
    fail on a short string, and an empty hash leaves a bare '+'. *)
Theorem build_version_short_hash (h : string) (p : process) :
  String.length h <= 7 ->
  flag_on p "VERSIONED_IPEX_BUILD" = true ->
  get_build_version h p = (Return (base_version p +:+ "+" +:+ h), p).
Proof.
  intros Hlen Hflag.
  rewrite get_build_version_total, Hflag, (slice_to_short 7 h Hlen). reflexivity.
Qed.

Lemma build_version_short_hash_witness :
  get_build_version EmptyString (demo_process [("VERSIONED_IPEX_BUILD", "on")])
  = (Return "1.0.0+", demo_process [("VERSIONED_IPEX_BUILD", "on")]).
Proof.
  apply (build_version_short_hash EmptyString (demo_process [("VERSIONED_IPEX_BUILD", "on")])).
  - simpl. lia.
  - reflexivity.
Defined.

Section Trimmed.
Import PyStr.

Lemma rstrip_idempotent (s : string) : rstrip (rstrip s) = rstrip s.
Proof.
  induction s as [|c s IH]; [reflexivity|]. cbn [rstrip].
  destruct (rstrip s) as [|d r] eqn:E.
  - destruct (isspace c) eqn:Ec; [reflexivity|]. cbn [rstrip]. rewrite Ec. reflexivity.
  - cbn [rstrip]. cbn [rstrip] in IH. rewrite IH. reflexivity.
Qed.

Lemma lstrip_head (s : string) :
  lstrip s = EmptyString ∨ ∃ c r, lstrip s = String c r ∧ isspace c = false.
Proof.
  induction s as [|c s IH]; [left; reflexivity|]. cbn [lstrip].
  destruct (isspace c) eqn:Ec; [exact IH|]. right. exists c, s. auto.
Qed.

Lemma rstrip_keeps_head (c : ascii) (r : string) :
  isspace c = false -> ∃ r', rstrip (String c r) = String c r'.
Proof.
  intros Hc. cbn [rstrip]. destruct (rstrip r); [rewrite Hc|]; eauto.
Qed.

(** Trimming what is trimmed changes nothing. *)
Lemma strip_idempotent (s : string) : strip (strip s) = strip s.
Proof.
  unfold strip. destruct (lstrip_head s) as [-> | [c [r [-> Hc]]]]; [reflexivity|].
  destruct (rstrip_keeps_head c r Hc) as [r' Hr]. rewrite Hr at 1.
  cbn [lstrip]. rewrite Hc, <- Hr. apply rstrip_idempotent.
Qed.
End Trimmed.

(** X6: The hashes [get_git_head_sha] returns are trimmed: no white space, so
    no newline either, is left at either end, whatever git printed. *)
Theorem git_head_sha_trimmed (w : World) (b : string) (p q : process)
    (ipex_git_sha torch_git_sha : string) :
  get_git_head_sha w b p = (Return (ipex_git_sha, torch_git_sha), q) ->
  PyStr.strip ipex_git_sha = ipex_git_sha ∧ PyStr.strip torch_git_sha = torch_git_sha.
Proof.
  cbv [get_git_head_sha check_output spawn bind ret raise decode_ascii os_path_isdir];
    cbn [cwd environ log].
  destruct (run_child w git_rev_parse_HEAD (resolve (cwd p) b) (environ p)) as [[] out|];
    cbn [Z.eqb]; try discriminate.
  destruct (PyStr.is_7bit out); [|discriminate].
  destruct (path_isdir w _); cbn [cwd environ log].
  - destruct (run_child w git_rev_parse_HEAD _ (environ p)) as [[] out2|];
      cbn [Z.eqb]; try discriminate.
    destruct (PyStr.is_7bit out2); [|discriminate].
    intros [= <- <- _]. split; apply strip_idempotent.
  - intros [= <- <- _]. split; [apply strip_idempotent|reflexivity].
Qed.

Lemma git_head_sha_trimmed_witness :
  PyStr.strip sha40 = sha40 ∧ PyStr.strip EmptyString = EmptyString.
Proof.
  apply (git_head_sha_trimmed (demo_world 0 0) "/w/ipex" (demo_process [])
           {| cwd := "/w/ipex"; environ := ∅;
              log := [Spawn git_rev_parse_HEAD "/w/ipex" ∅] |} sha40 EmptyString).
  reflexivity.
Defined.

(** X7: With a checkout above the project, git is asked twice, the second time
    in the parent directory; when it fails there, the project's own hash is
    lost with it: the exception escapes. *)
Theorem git_head_sha_parent_failure (w : World) (b h : string) (p : process)
    (code : Z) (out : string) :
  run_child w git_rev_parse_HEAD (resolve (cwd p) b) (environ p) = Exited 0 (h +:+ nl) ->
  all_hex h = true ->
  path_isdir w (resolve (cwd p) (PosixPath.join b [".."; ".git"])) = true ->
  run_child w git_rev_parse_HEAD (resolve (cwd p) (PosixPath.join b [".."])) (environ p)
  = Exited code out ->
  code ≠ 0%Z ->
  fst (get_git_head_sha w b p) = Raise (CalledProcessError code git_rev_parse_HEAD)
  ∧ spawn_places (log (snd (get_git_head_sha w b p)))
    = spawn_places (log p)
      ++ [(resolve (cwd p) b, environ p);
          (resolve (cwd p) (PosixPath.join b [".."]), environ p)].
Proof.
  intros Hgit Hhex Hdir Hparent Hcode.
  cbv [get_git_head_sha check_output spawn bind ret raise decode_ascii os_path_isdir];
    cbn [cwd environ log].
  rewrite Hgit; cbn [Z.eqb]. rewrite (is_7bit_hex_line h Hhex); cbn [cwd environ log].
  rewrite Hdir; cbn [cwd environ log]. rewrite Hparent.
  apply Z.eqb_neq in Hcode. rewrite Hcode; cbn [fst snd log].
  split; [reflexivity|].
  unfold spawn_places. rewrite !omap_app. cbn [omap]. rewrite <- app_assoc. reflexivity.
Qed.

Lemma git_head_sha_parent_failure_witness :
  fst (get_git_head_sha
         (with_children
            (fun _ d _ => if String.eqb d "/w/ipex/.." then Exited 128 EmptyString
                          else Exited 0 (sha40 +:+ nl))
            (with_files (fun _ => true) (fun _ => true) (fun _ => true) (fun _ => true)
               (demo_world 0 0)))
         "/w/ipex" (demo_process []))
  = Raise (CalledProcessError 128 git_rev_parse_HEAD).
Proof.
  refine (proj1 (git_head_sha_parent_failure _ "/w/ipex" sha40 (demo_process [])
                   128 EmptyString _ _ _ _ _)); try reflexivity. lia.
Defined.

(** X8: The two version files are written in a fixed order, the Python one
    first, and nothing else is written or started: a failure on the first
    leaves both alone, a failure on the second comes after the first has
    been replaced. *)
Theorem create_version_files_order (w : World)
    (b version ipex_git_sha torch_git_sha : string) (p : process) :
  let py := PosixPath.join b ["intel_pytorch_extension_py"; "version.py"] in
  let cpp := PosixPath.join b ["torch_ipex"; "csrc"; "version.cpp"] in
  ∃ evs,
    snd (create_version_files w b version ipex_git_sha torch_git_sha p)
    = {| cwd := cwd p; environ := environ p; log := log p ++ evs |}
    ∧ written evs
      = (if can_write w (resolve (cwd p) py)
         then py :: (if can_write w (resolve (cwd p) cpp) then [cpp] else [])
         else [])
    ∧ fst (create_version_files w b version ipex_git_sha torch_git_sha p)
      = (if can_write w (resolve (cwd p) py)
         then if can_write w (resolve (cwd p) cpp) then Return tt else Raise (OSError cpp)
         else Raise (OSError py))
    ∧ spawned evs = [].
Proof.
  cbv zeta.
  cbv [create_version_files write_file print emit bind ret]; cbn [cwd environ log].
  destruct (can_write w (resolve (cwd p)
              (PosixPath.join b ["intel_pytorch_extension_py"; "version.py"]))) eqn:E1;
    cbn [cwd environ log fst snd].
  - destruct (can_write w (resolve (cwd p)
                (PosixPath.join b ["torch_ipex"; "csrc"; "version.cpp"]))) eqn:E2;
      cbn [cwd environ log fst snd]; eexists;
      (split; [rewrite <- ?app_assoc; reflexivity|]); cbn [app written spawned omap];
      repeat split.
  - eexists. split; [reflexivity|]. cbn [written spawned omap]. repeat split.
Qed.

(** ** Code Generator Invoker *)

(** X9: All goes well: the sparse generator, then the dense one, both in the
    scripts directory with the process's own environment, and the process
    is back where it started. *)
Theorem generate_code_success (w : World) (g : globals) (p : process)
    (out1 out2 : string) :
  getcwd_ok (cwd p) ->
  can_chdir w (PosixPath.abspath (cwd p) (scripts_cpu_dir g)) = true ->
  can_chdir w (cwd p) = true ->
  run_child w (gen_sparse_cmd g) (PosixPath.abspath (cwd p) (scripts_cpu_dir g)) (environ p)
  = Exited 0 out1 ->
  run_child w (gen_dense_cmd g) (PosixPath.abspath (cwd p) (scripts_cpu_dir g)) (environ p)
  = Exited 0 out2 ->
  generate_ipex_cpu_aten_code w g p
  = (Return tt,
     {| cwd := cwd p; environ := environ p;
        log := log p ++
          [Chdir (scripts_cpu_dir g);
           Spawn (gen_sparse_cmd g) (PosixPath.abspath (cwd p) (scripts_cpu_dir g)) (environ p);
           Spawn (gen_dense_cmd g) (PosixPath.abspath (cwd p) (scripts_cpu_dir g)) (environ p);
           Chdir (cwd p)] |}).
Proof.
  intros Hcwd Hin Hback Hsparse Hdense.
  cbv [generate_ipex_cpu_aten_code bind get chdir subprocess_call spawn ret emit
       sys_exit raise]; cbn [cwd environ log].
  rewrite (abspath_curdir (cwd p) Hcwd).
  fold (scripts_cpu_dir g).
  rewrite Hin; cbn [cwd environ log]. rewrite Hsparse; cbn [negb Z.eqb cwd environ log].
  rewrite Hdense; cbn [negb Z.eqb cwd environ log].
  destruct Hcwd as [Habs Hnorm].
  rewrite (abspath_of_abs _ (cwd p) Habs), Hnorm, Hback; cbn [cwd environ log].
  rewrite <- !app_assoc. reflexivity.
Qed.

Lemma generate_code_success_witness :
  generate_ipex_cpu_aten_code (demo_world 0 0) demo_globals (demo_process [])
  = (Return tt,
     {| cwd := "/w/ipex"; environ := ∅;
        log := [] ++
          [Chdir "/w/ipex/scripts/cpu";
           Spawn (gen_sparse_cmd demo_globals) "/w/ipex/scripts/cpu" ∅;
           Spawn (gen_dense_cmd demo_globals) "/w/ipex/scripts/cpu" ∅;
           Chdir "/w/ipex"] |}).
Proof.
  apply (generate_code_success (demo_world 0 0) demo_globals (demo_process [])
           EmptyString EmptyString); try reflexivity.
  split; reflexivity.
Defined.

(** X10: The dense generator fails: exit status 1, the failing command reported,
    the process back where it started, and by then the sparse generator has
    run to the end. *)
Theorem dense_failure_stops_generation (w : World) (g : globals) (p : process)
    (out1 out2 : string) (code : Z) :
  getcwd_ok (cwd p) ->
  can_chdir w (PosixPath.abspath (cwd p) (scripts_cpu_dir g)) = true ->
  can_chdir w (cwd p) = true ->
  run_child w (gen_sparse_cmd g) (PosixPath.abspath (cwd p) (scripts_cpu_dir g)) (environ p)
  = Exited 0 out1 ->
  run_child w (gen_dense_cmd g) (PosixPath.abspath (cwd p) (scripts_cpu_dir g)) (environ p)
  = Exited code out2 ->
  code ≠ 0%Z ->
  generate_ipex_cpu_aten_code w g p
  = (SysExit 1,
     {| cwd := cwd p; environ := environ p;
        log := log p ++
          [Chdir (scripts_cpu_dir g);
           Spawn (gen_sparse_cmd g) (PosixPath.abspath (cwd p) (scripts_cpu_dir g)) (environ p);
           Spawn (gen_dense_cmd g) (PosixPath.abspath (cwd p) (scripts_cpu_dir g)) (environ p);
           PrintFailedToRun (gen_dense_cmd g);
           Chdir (cwd p)] |}).
Proof.
  intros Hcwd Hin Hback Hsparse Hdense Hcode.
  cbv [generate_ipex_cpu_aten_code bind get chdir subprocess_call spawn ret emit
       sys_exit raise]; cbn [cwd environ log].
  rewrite (abspath_curdir (cwd p) Hcwd).
  fold (scripts_cpu_dir g).
  rewrite Hin; cbn [cwd environ log]. rewrite Hsparse; cbn [negb Z.eqb cwd environ log].
  rewrite Hdense. apply Z.eqb_neq in Hcode. rewrite Hcode; cbn [negb cwd environ log].
  destruct Hcwd as [Habs Hnorm].
  rewrite (abspath_of_abs _ (cwd p) Habs), Hnorm, Hback; cbn [cwd environ log].
  rewrite <- !app_assoc. reflexivity.
Qed.

Lemma dense_failure_stops_generation_witness :
  fst (generate_ipex_cpu_aten_code
         (with_children (demo_children "./gen-dense-cpu-ops.sh" (Exited 3 EmptyString))
            (demo_world 0 0))
         demo_globals (demo_process []))
  = SysExit 1.
Proof.
  rewrite (dense_failure_stops_generation
             (with_children (demo_children "./gen-dense-cpu-ops.sh" (Exited 3 EmptyString))
                (demo_world 0 0))
             demo_globals (demo_process []) EmptyString EmptyString 3);
    try reflexivity; [split; reflexivity | lia].
Defined.

(** X11: A generator that cannot be started at all is not a generator that fails:
    the [OSError] escapes, nothing is reported, and the process is left in
    the scripts directory. *)
Theorem generator_not_started_leaves_cwd (w : World) (g : globals) (p : process)
    (what : string) :
  can_chdir w (PosixPath.abspath (cwd p) (scripts_cpu_dir g)) = true ->
  run_child w (gen_sparse_cmd g) (PosixPath.abspath (cwd p) (scripts_cpu_dir g)) (environ p)
  = NotStarted what ->
  generate_ipex_cpu_aten_code w g p
  = (Raise (OSError what),
     {| cwd := PosixPath.abspath (cwd p) (scripts_cpu_dir g); environ := environ p;
        log := log p ++
          [Chdir (scripts_cpu_dir g);
           Spawn (gen_sparse_cmd g) (PosixPath.abspath (cwd p) (scripts_cpu_dir g))
             (environ p)] |}).
Proof.
  intros Hin Hsparse.
  cbv [generate_ipex_cpu_aten_code bind get chdir subprocess_call spawn ret emit
       sys_exit raise]; cbn [cwd environ log].
  fold (scripts_cpu_dir g).
  rewrite Hin; cbn [cwd environ log]. rewrite Hsparse; cbn [cwd environ log].
  rewrite <- !app_assoc. reflexivity.
Qed.

Lemma generator_not_started_leaves_cwd_witness :
  cwd (snd (generate_ipex_cpu_aten_code
              (with_children (demo_children "./gen-sparse-cpu-ops.sh" (NotStarted "ENOENT"))
                 (demo_world 0 0))
              demo_globals (demo_process [])))
  = "/w/ipex/scripts/cpu".
Proof.
  rewrite (generator_not_started_leaves_cwd
             (with_children (demo_children "./gen-sparse-cpu-ops.sh" (NotStarted "ENOENT"))
                (demo_world 0 0))
             demo_globals (demo_process []) "ENOENT"); reflexivity.
Defined.

(** X12: Whatever happens, the generators are the only children, in their fixed
    order: the dense one is never started unless the sparse one has been,
    both have been when the call returns, and the process exits only after
    a generator has run; the environment is not touched. *)
Theorem generate_code_children (w : World) (g : globals) (p : process) :
  ∃ evs,
    log (snd (generate_ipex_cpu_aten_code w g p)) = log p ++ evs
    ∧ is_prefix (spawned evs) [gen_sparse_cmd g; gen_dense_cmd g]
    ∧ match fst (generate_ipex_cpu_aten_code w g p) with
      | Return _ => spawned evs = [gen_sparse_cmd g; gen_dense_cmd g]
      | SysExit code => code = 1%Z ∧ spawned evs ≠ []
      | Raise _ => True
      end
    ∧ environ (snd (generate_ipex_cpu_aten_code w g p)) = environ p.
Proof.
  cbv [generate_ipex_cpu_aten_code bind get chdir subprocess_call spawn ret emit
       sys_exit raise]; cbn [cwd environ log].
  repeat match goal with
         | |- context [if can_chdir ?w ?d then _ else _] =>
             destruct (can_chdir w d); cbn [negb Z.eqb cwd environ log fst snd]
         | |- context [match run_child ?w ?a ?d ?e with _ => _ end] =>
             destruct (run_child w a d e) as [[] ?|?];
             cbn [negb Z.eqb cwd environ log fst snd]
         end;
    eexists; (split; [rewrite <- ?app_assoc; try reflexivity; symmetry; apply app_nil_r|]);
    cbn [app spawned omap];
    (split; [eexists; reflexivity|]); (split; [|reflexivity]);
    try exact I; try reflexivity; (split; [reflexivity|discriminate]).
Qed.

(** ** Native Build Orchestrator *)

(** [build_extension] with cmake known and the build directory in place,
    step by step: configure, then the build driver, both in the build
    directory and in the environment copied at the start. *)
Lemma build_extension_result (w : World) (g : globals) (self : IPEXBuild)
    (ext : IPEXExt) (p : process) (c : string) :
  cmake self = Some c ->
  path_exists w (resolve (cwd p) (build_dir ext)) = true ->
  build_extension w g self ext p
  = let cfg := configure_argv w g p c ext (install_dir w p ext) in
    let drv := build_driver p :: ["-j"; pretty (cpu_count w)] in
    let dir := resolve (cwd p) (build_dir ext) in
    let after evs :=
      {| cwd := cwd p;
         environ := if flag_on p "USE_SYCL"
                    then <["CXX" := "compute++"]> (environ p) else environ p;
         log := log p ++ evs |} in
    match run_child w cfg dir (environ p) with
    | Exited code _ =>
        if (code =? 0)%Z then
          match run_child w drv dir (environ p) with
          | Exited code2 _ =>
              if (code2 =? 0)%Z
              then (Return tt, after [Spawn cfg dir (environ p); Spawn drv dir (environ p)])
              else (Raise (CalledProcessError code2 drv),
                    after [Spawn cfg dir (environ p); Spawn drv dir (environ p)])
          | NotStarted what =>
              (Raise (OSError what),
               after [Spawn cfg dir (environ p); Spawn drv dir (environ p)])
          end
        else (Raise (CalledProcessError code cfg), after [Spawn cfg dir (environ p)])
    | NotStarted what => (Raise (OSError what), after [Spawn cfg dir (environ p)])
    end.
Proof.
  intros Hcmake Hthere.
  cbv [build_extension bind get ret os_path_exists os_mkdir _check_env_flag getenv_or
       setenv self_cmake check_call spawn raise]; cbn [cwd environ log].
  rewrite Hthere, Hcmake; cbn [negb cwd environ log].
  cbv zeta. unfold configure_argv, configure_args, install_dir, build_driver, flag_on.
  destruct (py_is w (name ext) "torch_ipex");
  destruct (flag_of match environ p !! "DEBUG" with Some v => v | None => EmptyString end);
  destruct (flag_of match environ p !! "USE_SYCL" with Some v => v | None => EmptyString end);
  destruct (flag_of match environ p !! "DPCPP_ENABLE_PROFILING" with
                    | Some v => v | None => EmptyString end);
  destruct (flag_of match environ p !! "USE_NINJA" with Some v => v | None => EmptyString end);
  cbn [cwd environ log app andb];
  repeat match goal with
         | |- context [match run_child ?w ?a ?d ?e with _ => _ end] =>
             destruct (run_child w a d e) as [[] ?|?]; cbn [Z.eqb cwd environ log]
         end;
  rewrite <- ?app_assoc; reflexivity.
Qed.

(** X13: Configure and build both succeed: two children and no more, the build
    coordinator and then the build driver, ninja exactly when cmake was
    told -GNinja, both in the build directory and in the same environment. *)
Theorem build_extension_success (w : World) (g : globals) (self : IPEXBuild)
    (ext : IPEXExt) (p : process) (c out1 out2 : string) :
  cmake self = Some c ->
  path_exists w (resolve (cwd p) (build_dir ext)) = true ->
  run_child w (configure_argv w g p c ext (install_dir w p ext))
    (resolve (cwd p) (build_dir ext)) (environ p) = Exited 0 out1 ->
  run_child w (build_driver p :: ["-j"; pretty (cpu_count w)])
    (resolve (cwd p) (build_dir ext)) (environ p) = Exited 0 out2 ->
  fst (build_extension w g self ext p) = Return tt
  ∧ log (snd (build_extension w g self ext p))
    = log p ++
      [Spawn (configure_argv w g p c ext (install_dir w p ext))
         (resolve (cwd p) (build_dir ext)) (environ p);
       Spawn (build_driver p :: ["-j"; pretty (cpu_count w)])
         (resolve (cwd p) (build_dir ext)) (environ p)]
  ∧ (In "-GNinja" (configure_argv w g p c ext (install_dir w p ext))
     ∨ build_driver p = "make").
Proof.
  intros Hcmake Hthere Hcfg Hdrv.
  rewrite (build_extension_result w g self ext p c Hcmake Hthere). cbv zeta.
  rewrite Hcfg; cbn [Z.eqb]. rewrite Hdrv; cbn [Z.eqb fst snd log].
  repeat split.
  unfold build_driver, configure_argv.
  destruct (flag_on p "USE_NINJA"); [left|right; reflexivity].
  repeat (apply in_or_app; right). left. reflexivity.
Qed.

Lemma build_extension_success_witness :
  fst (build_extension (demo_world 0 0) demo_globals
         {| extensions := [demo_ext]; cmake := Some "/usr/bin/cmake" |}
         demo_ext (demo_process [("USE_NINJA", "1")]))
  = Return tt.
Proof.
  refine (proj1 (build_extension_success (demo_world 0 0) demo_globals
                   {| extensions := [demo_ext]; cmake := Some "/usr/bin/cmake" |}
                   demo_ext (demo_process [("USE_NINJA", "1")]) "/usr/bin/cmake"
                   EmptyString EmptyString _ _ _ _)); reflexivity.
Defined.

(** X14: When the build coordinator ends with a non-zero status, that status and
    its command line come back in [CalledProcessError], and the build
    driver is not started. *)
Theorem configure_failure_skips_build (w : World) (g : globals) (self : IPEXBuild)
    (ext : IPEXExt) (p : process) (c out : string) (code : Z) :
  cmake self = Some c ->
  path_exists w (resolve (cwd p) (build_dir ext)) = true ->
  run_child w (configure_argv w g p c ext (install_dir w p ext))
    (resolve (cwd p) (build_dir ext)) (environ p) = Exited code out ->
  code ≠ 0%Z ->
  fst (build_extension w g self ext p)
  = Raise (CalledProcessError code (configure_argv w g p c ext (install_dir w p ext)))
  ∧ spawned (log (snd (build_extension w g self ext p)))
    = spawned (log p) ++ [configure_argv w g p c ext (install_dir w p ext)].
Proof.
  intros Hcmake Hthere Hcfg Hcode.
  rewrite (build_extension_result w g self ext p c Hcmake Hthere). cbv zeta.
  rewrite Hcfg. apply Z.eqb_neq in Hcode. rewrite Hcode; cbn [fst snd log].
  split; [reflexivity|]. unfold spawned. rewrite omap_app. reflexivity.
Qed.

Lemma configure_failure_skips_build_witness :
  spawned (log (snd (build_extension
                       (with_children (demo_children "/usr/bin/cmake" (Exited 1 EmptyString))
                          (demo_world 0 0))
                       demo_globals
                       {| extensions := [demo_ext]; cmake := Some "/usr/bin/cmake" |}
                       demo_ext (demo_process []))))
  = [] ++ [configure_argv (demo_world 0 0) demo_globals (demo_process [])
             "/usr/bin/cmake" demo_ext "/w/ipex/build/lib"].
Proof.
  refine (proj2 (configure_failure_skips_build
                   (with_children (demo_children "/usr/bin/cmake" (Exited 1 EmptyString))
                      (demo_world 0 0))
                   demo_globals
                   {| extensions := [demo_ext]; cmake := Some "/usr/bin/cmake" |}
                   demo_ext (demo_process []) "/usr/bin/cmake" EmptyString 1 _ _ _ _));
    try reflexivity. lia.
Defined.

(** Branch on everything [build_extension] looks at. *)
Ltac build_cases :=
  repeat (cbn [negb Z.eqb cwd environ log];
          match goal with
          | |- context [if py_is ?w ?a ?b then _ else _] => destruct (py_is w a b)
          | |- context [if flag_of ?x then _ else _] => destruct (flag_of x) eqn:?
          | |- context [match cmake ?s with _ => _ end] => destruct (cmake s)
          | |- context [match run_child ?w ?a ?d ?e with _ => _ end] =>
              destruct (run_child w a d e) as [[] ?|?]
          end);
  cbn [negb Z.eqb cwd environ log].

(** X15: A missing build directory is made before anything is started in it;
    when it cannot be made, nothing is started at all. *)
Theorem build_dir_is_made_first (w : World) (g : globals) (self : IPEXBuild)
    (ext : IPEXExt) (p : process) :
  path_exists w (resolve (cwd p) (build_dir ext)) = false ->
  if can_mkdir w (resolve (cwd p) (build_dir ext))
  then ∃ rest, log (snd (build_extension w g self ext p))
               = log p ++ Mkdir (build_dir ext) :: rest
  else build_extension w g self ext p = (Raise (OSError (build_dir ext)), p).
Proof.
  intros Hmissing.
  cbv [build_extension bind get ret os_path_exists os_mkdir _check_env_flag getenv_or
       setenv self_cmake check_call spawn raise]; cbn [cwd environ log].
  rewrite Hmissing; cbn [negb].
  destruct (can_mkdir w (resolve (cwd p) (build_dir ext))); [|reflexivity].
  cbn [cwd environ log].
  build_cases;
    eexists; cbn [snd log]; rewrite <- ?app_assoc; reflexivity.
Qed.

Lemma build_dir_is_made_first_witness :
  ∃ rest,
    log (snd (build_extension
                (with_files (fun _ => true) (fun _ => false) (fun _ => false) (fun _ => true)
                   (demo_world 0 0))
                demo_globals
                {| extensions := [demo_ext]; cmake := Some "/usr/bin/cmake" |}
                demo_ext (demo_process [])))
    = [] ++ Mkdir "build" :: rest.
Proof.
  exact (build_dir_is_made_first
           (with_files (fun _ => true) (fun _ => false) (fun _ => false) (fun _ => true)
              (demo_world 0 0))
           demo_globals
           {| extensions := [demo_ext]; cmake := Some "/usr/bin/cmake" |}
           demo_ext (demo_process []) eq_refl).
Defined.

(** What [build_extension] can do to the process: it never changes the
    working directory, it only appends to the log, and the one thing it can
    do to the environment is to set CXX to compute++, which it does only
    with USE_SYCL on. *)
Lemma build_extension_frame (w : World) (g : globals) (self : IPEXBuild)
    (ext : IPEXExt) (p : process) :
  ∃ evs,
    log (snd (build_extension w g self ext p)) = log p ++ evs
    ∧ cwd (snd (build_extension w g self ext p)) = cwd p
    ∧ (environ (snd (build_extension w g self ext p)) = environ p
       ∨ flag_on p "USE_SYCL" = true
         ∧ environ (snd (build_extension w g self ext p))
           = <["CXX" := "compute++"]> (environ p)).
Proof.
  cbv [build_extension bind get ret os_path_exists os_mkdir _check_env_flag getenv_or
       setenv self_cmake check_call spawn raise]; cbn [cwd environ log].
  unfold flag_on.
  destruct (path_exists w (resolve (cwd p) (build_dir ext))); cbn [negb];
    [|destruct (can_mkdir w (resolve (cwd p) (build_dir ext)))]; cbn [cwd environ log];
    try (build_cases;
         eexists; cbn [snd log cwd environ];
         (split; [rewrite <- ?app_assoc; try reflexivity; symmetry; apply app_nil_r|]);
         (split; [reflexivity|]); auto).
Qed.

(** X16: [build_extension] stays in the working directory, only appends to the
    log, and leaves every environment variable but CXX as it found it. *)
Theorem build_extension_footprint (w : World) (g : globals) (self : IPEXBuild)
    (ext : IPEXExt) (p : process) :
  cwd (snd (build_extension w g self ext p)) = cwd p
  ∧ is_prefix (log p) (log (snd (build_extension w g self ext p)))
  ∧ ∀ k, k ≠ "CXX" ->
         environ (snd (build_extension w g self ext p)) !! k = environ p !! k.
Proof.
  destruct (build_extension_frame w g self ext p) as [evs [Hlog [Hcwd Henv]]].
  split; [exact Hcwd|]. split; [exists evs; exact Hlog|].
  intros k Hk. destruct Henv as [-> | [_ ->]]; [reflexivity|].
  apply lookup_insert_ne. congruence.
Qed.

Lemma build_extensions_frame (w : World) (g : globals) (self : IPEXBuild)
    (exts : list IPEXExt) (p : process) :
  ∃ evs,
    log (snd (build_extensions w g self exts p)) = log p ++ evs
    ∧ cwd (snd (build_extensions w g self exts p)) = cwd p.
Proof.
  revert p. induction exts as [|ext exts IH]; intros p.
  - exists []. cbn. rewrite app_nil_r. auto.
  - cbn [build_extensions]. unfold bind.
    destruct (build_extension_frame w g self ext p) as [evs [Hlog [Hcwd _]]].
    destruct (build_extension w g self ext p) as [[[]| |] q]; cbn [fst snd] in *;
      try solve [exists evs; auto].
    destruct (IH q) as [evs' [Hlog' Hcwd']].
    exists (evs ++ evs'). rewrite Hlog', Hlog, Hcwd', Hcwd, app_assoc. auto.
Qed.

(** X17: Code generation comes first and comes whole: when it does not return,
    the build hook ends there in the same way; when it does, all the hook
    does afterwards is appended to what the generation left, without
    leaving the directory. *)
Theorem generation_precedes_build (w : World) (g : globals) (self : IPEXBuild)
    (p : process) :
  match generate_ipex_cpu_aten_code w g
          {| cwd := cwd p; environ := environ p; log := log p ++ [Print stdout "run"] |}
  with
  | (Return _, q) =>
      is_prefix (log q) (log (snd (IPEXBuild_run w g self p)))
      ∧ cwd (snd (IPEXBuild_run w g self p)) = cwd q
  | (SysExit code, q) => IPEXBuild_run w g self p = (SysExit code, q)
  | (Raise e, q) => IPEXBuild_run w g self p = (Raise e, q)
  end.
Proof.
  cbv [IPEXBuild_run bind print emit ret raise].
  destruct (generate_ipex_cpu_aten_code w g _) as [[[]| |] q]; try reflexivity.
  destruct (match find_executable w "cmake3" with
            | Some c => if PyStr.truthy c then Some c else find_executable w "cmake"
            | None => find_executable w "cmake"
            end) as [c|]; cbn [fst snd]; [|split; [exists []; symmetry; apply app_nil_r|reflexivity]].
  destruct (String.eqb (platform_system w) "Windows"); cbn [fst snd];
    [split; [exists []; symmetry; apply app_nil_r|reflexivity]|].
  destruct (build_extensions_frame w g {| extensions := extensions self; cmake := Some c |}
              (extensions self) q) as [evs [Hlog Hcwd]].
  cbn [extensions].
  destruct (build_extensions w g _ (extensions self) q) as [[[]| |] q']; cbn [fst snd] in *;
    (split; [exists evs; exact Hlog | exact Hcwd]).
Qed.

(** X18: Without cmake3 and without cmake nothing can be built, but that is
    found out only after the code has been generated: the generators run
    as always, and then the hook raises, naming the extensions. *)
Theorem run_without_cmake (w : World) (g : globals) (self : IPEXBuild) (p : process) :
  find_executable w "cmake3" = None ->
  find_executable w "cmake" = None ->
  IPEXBuild_run w g self p
  = match generate_ipex_cpu_aten_code w g
            {| cwd := cwd p; environ := environ p; log := log p ++ [Print stdout "run"] |}
    with
    | (Return _, q) =>
        (Raise (RuntimeError
                  ("CMake must be installed to build the following extensions: " +:+
                   PyStr.join ", " (map name (extensions self)))), q)
    | (SysExit code, q) => (SysExit code, q)
    | (Raise e, q) => (Raise e, q)
    end.
Proof.
  intros H3 H.
  cbv [IPEXBuild_run bind print emit ret raise]. rewrite H3, H.
  destruct (generate_ipex_cpu_aten_code w g _) as [[[]| |] q]; reflexivity.
Qed.

Lemma run_without_cmake_witness :
  fst (IPEXBuild_run (with_executables (fun _ => None) (demo_world 0 0)) demo_globals
         {| extensions := [demo_ext; demo_ext]; cmake := None |} (demo_process []))
  = Raise (RuntimeError
             "CMake must be installed to build the following extensions: _torch_ipex, _torch_ipex").
Proof.
  rewrite (run_without_cmake (with_executables (fun _ => None) (demo_world 0 0))
             demo_globals {| extensions := [demo_ext; demo_ext]; cmake := None |}
             (demo_process []) eq_refl eq_refl).
  reflexivity.
Defined.

(** X19: On Windows the hook refuses to build, after the code has been generated
    and cmake has been looked up: no build child is started. *)
Theorem run_on_windows (w : World) (g : globals) (self : IPEXBuild) (p : process)
    (c : string) :
  platform_system w = "Windows" ->
  find_executable w "cmake" = Some c ->
  IPEXBuild_run w g self p
  = match generate_ipex_cpu_aten_code w g
            {| cwd := cwd p; environ := environ p; log := log p ++ [Print stdout "run"] |}
    with
    | (Return _, q) => (Raise (RuntimeError "Does not support windows"), q)
    | (SysExit code, q) => (SysExit code, q)
    | (Raise e, q) => (Raise e, q)
    end.
Proof.
  intros Hwin Hc.
  cbv [IPEXBuild_run bind print emit ret raise]. rewrite Hwin, Hc.
  destruct (generate_ipex_cpu_aten_code w g _) as [[[]| |] q]; try reflexivity.
  destruct (find_executable w "cmake3") as [c3|]; [destruct (PyStr.truthy c3)|]; reflexivity.
Qed.

Lemma run_on_windows_witness :
  spawned (log (snd (IPEXBuild_run (with_platform "Windows" (demo_world 0 0)) demo_globals
                       {| extensions := [demo_ext]; cmake := None |} (demo_process []))))
  = [gen_sparse_cmd demo_globals; gen_dense_cmd demo_globals].
Proof.
  rewrite (run_on_windows (with_platform "Windows" (demo_world 0 0)) demo_globals
             {| extensions := [demo_ext]; cmake := None |} (demo_process [])
             "/usr/bin/cmake" eq_refl eq_refl).
  reflexivity.
Defined.

(** X20: cmake3 is preferred: when it is on the path, a hook that returns has
    settled on it, whatever is there under the name cmake. *)
Theorem run_prefers_cmake3 (w : World) (g : globals) (self self' : IPEXBuild)
    (p : process) (c3 : string) :
  find_executable w "cmake3" = Some c3 ->
  c3 ≠ EmptyString ->
  fst (IPEXBuild_run w g self p) = Return self' ->
  cmake self' = Some c3.
Proof.
  intros H3 Hne.
  cbv [IPEXBuild_run bind print emit ret raise]. rewrite H3.
  destruct c3 as [|a c3]; [contradiction|]. cbn [PyStr.truthy].
  destruct (generate_ipex_cpu_aten_code w g _) as [[[]| |] q]; cbn [fst]; try discriminate.
  destruct (String.eqb (platform_system w) "Windows"); cbn [fst]; try discriminate.
  destruct (build_extensions w g _ _ q) as [[[]| |] q']; cbn [fst]; try discriminate.
  intros [= <-]. reflexivity.
Qed.

Lemma run_prefers_cmake3_witness :
  cmake {| extensions := [demo_ext]; cmake := Some "/usr/bin/cmake3" |}
  = Some "/usr/bin/cmake3".
Proof.
  apply (run_prefers_cmake3
           (with_executables (fun n => if String.eqb n "cmake3" then Some "/usr/bin/cmake3"
                                       else Some "/usr/bin/cmake") (demo_world 0 0))
           demo_globals {| extensions := [demo_ext]; cmake := None |}
           {| extensions := [demo_ext]; cmake := Some "/usr/bin/cmake3" |}
           (demo_process []) "/usr/bin/cmake3").
  - reflexivity.
  - discriminate.
  - vm_compute. reflexivity.
Defined.

(** X21: With USE_SYCL on and two extensions to build, the second is configured
    with CXX=compute++ although the first was not: its copy of the
    environment is taken after the first has assigned the variable. *)
Theorem second_extension_sees_CXX (w : World) (g : globals) (self : IPEXBuild)
    (e1 e2 : IPEXExt) (p : process) (c out1 out2 : string) :
  cmake self = Some c ->
  path_exists w (resolve (cwd p) (build_dir e1)) = true ->
  path_exists w (resolve (cwd p) (build_dir e2)) = true ->
  flag_on p "USE_SYCL" = true ->
  run_child w (configure_argv w g p c e1 (install_dir w p e1))
    (resolve (cwd p) (build_dir e1)) (environ p) = Exited 0 out1 ->
  run_child w (build_driver p :: ["-j"; pretty (cpu_count w)])
    (resolve (cwd p) (build_dir e1)) (environ p) = Exited 0 out2 ->
  ∃ argv rest,
    log (snd (build_extensions w g self [e1; e2] p))
    = log p ++
      [Spawn (configure_argv w g p c e1 (install_dir w p e1))
         (resolve (cwd p) (build_dir e1)) (environ p);
       Spawn (build_driver p :: ["-j"; pretty (cpu_count w)])
         (resolve (cwd p) (build_dir e1)) (environ p)]
      ++ Spawn argv (resolve (cwd p) (build_dir e2))
           (<["CXX" := "compute++"]> (environ p)) :: rest
    ∧ head argv = Some c.
Proof.
  intros Hcmake H1 H2 Hsycl Hcfg Hdrv.
  cbn [build_extensions]. unfold bind at 1.
  rewrite (build_extension_result w g self e1 p c Hcmake H1). cbv zeta.
  rewrite Hcfg; cbn [Z.eqb]. rewrite Hdrv; cbn [Z.eqb]. rewrite Hsycl.
  set (p' := {| cwd := cwd p; environ := <["CXX" := "compute++"]> (environ p);
                log := log p ++ _ |}).
  destruct (build_extension_configure w g self e2 p' c Hcmake H2) as [rest [Hlog _]].
  unfold bind, ret.
  destruct (build_extension w g self e2 p') as [[[]| |] q]; cbn [fst snd] in *;
    rewrite Hlog; subst p'; cbn [cwd environ log];
    eexists _, rest; rewrite <- app_assoc; (split; [reflexivity|reflexivity]).
Qed.

Lemma second_extension_sees_CXX_witness :
  ∃ argv rest,
    log (snd (build_extensions (demo_world 0 0) demo_globals
                {| extensions := [demo_ext; demo_ext]; cmake := Some "/usr/bin/cmake" |}
                [demo_ext; demo_ext] (demo_process [("USE_SYCL", "1")])))
    = [] ++
      [Spawn (configure_argv (demo_world 0 0) demo_globals (demo_process [("USE_SYCL", "1")])
                "/usr/bin/cmake" demo_ext "/w/ipex/build/lib")
         "/w/ipex/build" (<["USE_SYCL" := "1"]> ∅);
       Spawn ["make"; "-j"; "4"] "/w/ipex/build" (<["USE_SYCL" := "1"]> ∅)]
      ++ Spawn argv "/w/ipex/build"
           (<["CXX" := "compute++"]> (<["USE_SYCL" := "1"]> ∅)) :: rest
    ∧ head argv = Some "/usr/bin/cmake".
Proof.
  apply (second_extension_sees_CXX (demo_world 0 0) demo_globals
           {| extensions := [demo_ext; demo_ext]; cmake := Some "/usr/bin/cmake" |}
           demo_ext demo_ext (demo_process [("USE_SYCL", "1")]) "/usr/bin/cmake"
           EmptyString EmptyString); reflexivity.
Defined.

(** ** Clean hook *)

Section CleanHookMore.
Import PyStr IPEXClean.
Context {FS : Type}.
Variable glob : FS -> string -> list string.
Variable os_remove : FS -> string -> option FS.
Variable rmtree : FS -> string -> FS.
Variable base_clean_run : FS -> FS.

#[local] Arguments PyStr.startswith : simpl never.

(** The loop never looks past the first marker line. *)
Lemma clean_loop_before_marker (lines : list string) (st : FS * list clean_event) :
  clean_loop glob os_remove rmtree lines st
  = clean_loop glob os_remove rmtree (before_marker lines) st.
Proof.
  revert st. induction lines as [|l lines IH]; intros st; [reflexivity|].
  cbn [before_marker]. destruct (startswith marker l) eqn:E.
  - apply clean_loop_marker, E.
  - rewrite (clean_loop_cons glob os_remove rmtree l lines st E).
    rewrite (clean_loop_cons glob os_remove rmtree l (before_marker lines) st E).
    apply IH.
Qed.

(** Lines that are comments leave the state alone. *)
Lemma clean_loop_comments (lines : list string) (st : FS * list clean_event) :
  filter (fun l => startswith "#" l = false) lines = [] ->
  clean_loop glob os_remove rmtree lines st = st.
Proof.
  revert st. induction lines as [|l lines IH]; intros st H; [reflexivity|].
  destruct (startswith "#" l) eqn:Ec.
  - rewrite filter_cons_False in H by congruence.
    cbn [clean_loop]. unfold pat_match. rewrite Ec.
    destruct (startswith marker l); cbn [group1_truthy truthy]; [reflexivity|]. apply IH, H.
  - rewrite filter_cons_True in H by assumption. discriminate H.
Qed.

Lemma no_glob_nothing_found (evs : list clean_event) :
  globbed evs = [] -> found_entries evs = [].
Proof.
  unfold globbed, found_entries.
  induction evs as [|e evs IH]; [reflexivity|]. destruct e; cbn [omap]; try exact IH.
  simpl. discriminate.
Qed.

Lemma found_entries_app (a b : list clean_event) :
  found_entries (a ++ b) = found_entries a ++ found_entries b.
Proof. unfold found_entries. rewrite omap_app, concat_app. reflexivity. Qed.

Lemma deleted_app (a b : list clean_event) : deleted (a ++ b) = deleted a ++ deleted b.
Proof. unfold deleted. apply omap_app. Qed.

Lemma clean_loop_deleted (lines : list string) (st : FS * list clean_event) :
  deleted (snd st) = found_entries (snd st) ->
  deleted (snd (clean_loop glob os_remove rmtree lines st))
  = found_entries (snd (clean_loop glob os_remove rmtree lines st)).
Proof.
  revert st. induction lines as [|l lines IH]; intros st Hst; [exact Hst|].
  cbn [clean_loop]. destruct (pat_match l) as [m|].
  - destruct (group1_truthy m); [exact Hst|]. apply IH, Hst.
  - apply IH.
    destruct (remove_entries_log os_remove rmtree (glob (fst st) l)
                (fst st, snd st ++ [Globbed l (glob (fst st) l)]))
      as [evs [-> [Hg Hd]]].
    cbn [snd]. rewrite !deleted_app, !found_entries_app, Hst, Hd.
    rewrite (no_glob_nothing_found evs Hg), app_nil_r.
    cbn. rewrite ?app_nil_r. reflexivity.
Qed.
End CleanHookMore.

(** X22: Without a marker line the whole ignore-list is cleaned: every line that
    is not empty and not a comment is expanded, in order. *)
Theorem clean_without_marker {FS : Type}
    (glob : FS -> string -> list string) (os_remove : FS -> string -> option FS)
    (rmtree : FS -> string -> FS) (base_clean_run : FS -> FS)
    (ignores : string) (fs : FS) :
  existsb (PyStr.startswith IPEXClean.marker) (PyStr.split "010" ignores) = false ->
  IPEXClean.globbed
    (snd (snd (IPEXClean.run glob os_remove rmtree base_clean_run (Some ignores) fs)))
  = filter (fun l => is_pattern l = true) (PyStr.split "010" ignores).
Proof.
  intros H. rewrite run_globbed, (before_marker_no_marker _ H). reflexivity.
Qed.

Lemma clean_without_marker_witness :
  IPEXClean.globbed
    (snd (snd (FlatDir.run (Some ("*.o" +:+ nl +:+ "#x" +:+ nl +:+ nl +:+ "build"))
                 ["a.o"; "build"])))
  = ["*.o"; "build"].
Proof.
  exact (clean_without_marker FlatDir.glob FlatDir.os_remove FlatDir.rmtree
           FlatDir.base_clean_run ("*.o" +:+ nl +:+ "#x" +:+ nl +:+ nl +:+ "build")
           ["a.o"; "build"] eq_refl).
Defined.

(** X23: What the hook tries to delete is what its globs found, entry by entry
    and in that order: each entry found gets one attempt, whether
    [os.remove] works or [shutil.rmtree] has to step in, and a failed
    attempt does not stop the loop. *)
Theorem clean_deletes_what_it_finds {FS : Type}
    (glob : FS -> string -> list string) (os_remove : FS -> string -> option FS)
    (rmtree : FS -> string -> FS) (base_clean_run : FS -> FS)
    (gitignore : option string) (fs : FS) :
  IPEXClean.deleted
    (snd (snd (IPEXClean.run glob os_remove rmtree base_clean_run gitignore fs)))
  = found_entries
      (snd (snd (IPEXClean.run glob os_remove rmtree base_clean_run gitignore fs))).
Proof.
  destruct gitignore as [ignores|]; [|reflexivity].
  unfold IPEXClean.run. cbn [snd]. apply clean_loop_deleted. reflexivity.
Qed.

(** X24: Two ignore-lists that agree up to their first marker line are cleaned
    alike: what follows the marker has no influence on the outcome. *)
Theorem clean_depends_on_lines_before_marker {FS : Type}
    (glob : FS -> string -> list string) (os_remove : FS -> string -> option FS)
    (rmtree : FS -> string -> FS) (base_clean_run : FS -> FS)
    (ignores ignores' : string) (fs : FS) :
  before_marker (PyStr.split "010" ignores) = before_marker (PyStr.split "010" ignores') ->
  IPEXClean.run glob os_remove rmtree base_clean_run (Some ignores) fs
  = IPEXClean.run glob os_remove rmtree base_clean_run (Some ignores') fs.
Proof.
  intros H. unfold IPEXClean.run, IPEXClean.ignore_lines.
  rewrite (clean_loop_before_marker glob os_remove rmtree (filter _ (PyStr.split _ ignores))).
  rewrite (clean_loop_before_marker glob os_remove rmtree (filter _ (PyStr.split _ ignores'))).
  rewrite !before_marker_filter, H. reflexivity.
Qed.

Lemma clean_depends_on_lines_before_marker_witness :
  FlatDir.run (Some ("*.o" +:+ nl +:+ IPEXClean.marker +:+ nl +:+ "*.txt")) ["a.o"; "a.txt"]
  = FlatDir.run (Some ("*.o" +:+ nl +:+ IPEXClean.marker +:+ "#" +:+ nl +:+ "a.o" +:+ nl))
      ["a.o"; "a.txt"].
Proof.
  apply (clean_depends_on_lines_before_marker FlatDir.glob FlatDir.os_remove FlatDir.rmtree
           FlatDir.base_clean_run). reflexivity.
Defined.

(** X25: An ignore-list with nothing to expand before its marker (an empty file,
    comments only, the marker on the first line) makes the hook a plain
    distutils clean: no glob, no deletion of its own. *)
Theorem clean_nothing_to_expand {FS : Type}
    (glob : FS -> string -> list string) (os_remove : FS -> string -> option FS)
    (rmtree : FS -> string -> FS) (base_clean_run : FS -> FS)
    (ignores : string) (fs : FS) :
  filter (fun l => is_pattern l = true) (before_marker (PyStr.split "010" ignores)) = [] ->
  IPEXClean.run glob os_remove rmtree base_clean_run (Some ignores) fs
  = (Return tt, (base_clean_run fs, [])).
Proof.
  intros H. unfold IPEXClean.run, IPEXClean.ignore_lines.
  rewrite (clean_loop_before_marker glob os_remove rmtree).
  rewrite before_marker_filter.
  rewrite (clean_loop_comments glob os_remove rmtree); [reflexivity|].
  rewrite filter_pattern. exact H.
Qed.

Lemma clean_nothing_to_expand_witness :
  FlatDir.run (Some ("# build products" +:+ nl +:+ nl +:+ IPEXClean.marker +:+ nl +:+ "*.o"))
    ["a.o"]
  = (Return tt, (["a.o"], [])).
Proof.
  apply (clean_nothing_to_expand FlatDir.glob FlatDir.os_remove FlatDir.rmtree
           FlatDir.base_clean_run). reflexivity.
Defined.

(** ** Platform constants and the rpath flag *)

(** X26: At most one of the three platform constants holds, the rpath flag is
    empty on Windows and nowhere else, and off Windows the path can be read
    back from the flag: different paths give different flags. *)
Theorem make_relative_rpath_platforms (w : World) (path path' : string) :
  IS_WINDOWS w && IS_DARWIN w = false
  ∧ IS_WINDOWS w && IS_LINUX w = false
  ∧ IS_DARWIN w && IS_LINUX w = false
  ∧ String.eqb (make_relative_rpath w path) EmptyString = IS_WINDOWS w
  ∧ (IS_WINDOWS w = false ->
     make_relative_rpath w path = make_relative_rpath w path' -> path = path').
Proof.
  unfold make_relative_rpath, IS_WINDOWS, IS_DARWIN, IS_LINUX.
  destruct (String.eqb (platform_system w) "Windows") eqn:Ew;
  destruct (String.eqb (platform_system w) "Darwin") eqn:Ed;
  destruct (String.eqb (platform_system w) "Linux") eqn:El;
    try (apply String.eqb_eq in Ew); try (apply String.eqb_eq in Ed);
    try (apply String.eqb_eq in El); try congruence;
    repeat split; try discriminate; intros _ H; simpl in H; congruence.
Qed.

(** ** Extension Descriptor, again *)

Section MorePaths.
Import PyStr PosixPath.

Lemma with_slashes_abs (k : nat) (s : string) : k <> 0 -> isabs (with_slashes k s) = true.
Proof. destruct k as [|[|k]]; [contradiction| |]; reflexivity. Qed.

(** [abspath] gives an absolute path whenever the working directory is
    one. *)
Lemma abspath_isabs (d x : string) : isabs d = true -> isabs (abspath d x) = true.
Proof.
  intros Hd. unfold abspath.
  assert (Hx : isabs (if isabs x then x else join d [x]) = true).
  { destruct (isabs x) eqn:E; [exact E|]. change (join d [x]) with (join2 d x).
    rewrite (join2_abs d x Hd). apply orb_true_r. }
  rewrite (normpath_abs _ Hx). apply with_slashes_abs.
  destruct (initial_slashes_abs _ Hx) as [-> | ->]; discriminate.
Qed.
End MorePaths.

(** X27: Whatever directory a descriptor is made with, relative or not, its
    [project_dir] is an absolute path, and it is what [build_extension] gives
    cmake as the source directory: when cmake is known and the build
    directory is there, the first thing [build_extension] does is to start a
    child whose command line has [project_dir] in second place. *)
Theorem project_dir_is_absolute (getcwd nm arg : string) (w : World) (g : globals)
    (self : IPEXBuild) (p : process) (c : string) :
  PosixPath.isabs getcwd = true ->
  cmake self = Some c ->
  path_exists w (resolve (cwd p) (build_dir (IPEXExt__init__ getcwd nm arg))) = true ->
  PosixPath.isabs (project_dir (IPEXExt__init__ getcwd nm arg)) = true
  ∧ project_dir (IPEXExt__init__ getcwd nm arg) = PosixPath.abspath getcwd arg
  ∧ ∃ argv rest,
      log (snd (build_extension w g self (IPEXExt__init__ getcwd nm arg) p))
      = log p ++
        Spawn argv (resolve (cwd p) (build_dir (IPEXExt__init__ getcwd nm arg)))
          (environ p) :: rest
      ∧ nth_error argv 0 = Some c
      ∧ nth_error argv 1 = Some (project_dir (IPEXExt__init__ getcwd nm arg)).
Proof.
  intros Habs Hcmake Hthere.
  split; [apply abspath_isabs, Habs|].
  split; [reflexivity|].
  destruct (build_extension_configure w g self _ p c Hcmake Hthere) as (rest & Hlog & _).
  eexists _, rest. split; [exact Hlog|].
  split; reflexivity.
Qed.

Lemma project_dir_is_absolute_witness :
  PosixPath.isabs (project_dir (IPEXExt__init__ "/w/ipex" "_torch_ipex" "../x")) = true
  ∧ project_dir (IPEXExt__init__ "/w/ipex" "_torch_ipex" "../x") = "/w/x"
  ∧ ∃ argv rest,
      log (snd (build_extension (demo_world 0 0) demo_globals
                  {| extensions := []; cmake := Some "/usr/bin/cmake" |}
                  (IPEXExt__init__ "/w/ipex" "_torch_ipex" "../x") (demo_process [])))
      = log (demo_process []) ++
        Spawn argv "/w/ipex/../x/build" (environ (demo_process [])) :: rest
      ∧ nth_error argv 0 = Some "/usr/bin/cmake"
      ∧ nth_error argv 1 = Some "/w/x".
Proof.
  exact (project_dir_is_absolute "/w/ipex" "_torch_ipex" "../x" (demo_world 0 0)
           demo_globals {| extensions := []; cmake := Some "/usr/bin/cmake" |}
           (demo_process []) "/usr/bin/cmake" eq_refl eq_refl eq_refl).
Defined.

(** ** The script as a whole *)

(** The module-level statements end in one of three ways, and only one of
    them leaves both version files written. *)
Lemma version_prelude_log (w : World) (g : globals) (p : process) :
  ∃ evs,
    snd (version_prelude w g p)
    = {| cwd := cwd p; environ := environ p; log := log p ++ evs |}
    ∧ match fst (version_prelude w g p) with
      | Return version =>
          written evs
          = [PosixPath.join (base_dir g) ["intel_pytorch_extension_py"; "version.py"];
             PosixPath.join (base_dir g) ["torch_ipex"; "csrc"; "version.cpp"]]
          ∧ In (Print stdout ("Building torch_ipex version: " +:+ version)) evs
      | SysExit _ => False
      | Raise _ => True
      end.
Proof.
  cbv [version_prelude get_git_head_sha check_output spawn decode_ascii os_path_isdir
       get_build_version _check_env_flag getenv_or try_except create_version_files
       write_file print emit bind ret raise]; cbn [cwd environ log].
  repeat (cbn [negb Z.eqb cwd environ log fst snd];
          match goal with
          | |- context [match run_child ?w ?a ?d ?e with _ => _ end] =>
              destruct (run_child w a d e) as [[] ?|?]
          | |- context [if PyStr.is_7bit ?x then _ else _] => destruct (PyStr.is_7bit x)
          | |- context [if path_isdir ?w ?x then _ else _] => destruct (path_isdir w x)
          | |- context [if can_write ?w ?x then _ else _] => destruct (can_write w x)
          | |- context [if flag_of ?x then _ else _] => destruct (flag_of x)
          end);
    cbn [negb Z.eqb cwd environ log fst snd];
    eexists; (split; [rewrite <- ?app_assoc; reflexivity|]);
    try exact I; cbn [app written omap];
    (split; [reflexivity|]); rewrite ?in_app_iff; cbn [In]; auto 10.
Qed.

Lemma setup_py_after_prelude (w : World) (p : process) :
  setup_py_build_ext w p
  = (do _ <- version_prelude w (module_globals w (cwd p));
     IPEXBuild_run w (module_globals w (cwd p))
       {| extensions := [IPEXExt__init__ (cwd p) "_torch_ipex"
                           (PosixPath.dirname (script_file w))];
          cmake := None |}) p.
Proof.
  cbv [setup_py_build_ext version_prelude bind get ret].
  destruct (get_git_head_sha w _ p) as [[[]| |] q1]; try reflexivity.
  destruct (get_build_version _ q1) as [[| |] q2]; try reflexivity.
  destruct (create_version_files w _ _ _ _ q2) as [[| |] q3]; reflexivity.
Qed.

(** X28: The version files come before everything else the script builds: when
    the module-level statements fail, the script ends there and the build
    hook is never entered; when the hook is entered, both version files
    have been written, in the directory and environment the script started
    with. *)
Theorem version_files_precede_build (w : World) (p : process) :
  match version_prelude w (module_globals w (cwd p)) p with
  | (Return version, q) =>
      setup_py_build_ext w p
      = IPEXBuild_run w (module_globals w (cwd p))
          {| extensions := [IPEXExt__init__ (cwd p) "_torch_ipex"
                              (PosixPath.dirname (script_file w))];
             cmake := None |} q
      ∧ cwd q = cwd p ∧ environ q = environ p
      ∧ ∃ evs, log q = log p ++ evs
               ∧ written evs
                 = [PosixPath.join (base_dir (module_globals w (cwd p)))
                      ["intel_pytorch_extension_py"; "version.py"];
                    PosixPath.join (base_dir (module_globals w (cwd p)))
                      ["torch_ipex"; "csrc"; "version.cpp"]]
               ∧ In (Print stdout ("Building torch_ipex version: " +:+ version)) evs
  | (SysExit code, q) => setup_py_build_ext w p = (SysExit code, q)
  | (Raise e, q) => setup_py_build_ext w p = (Raise e, q)
  end.
Proof.
  rewrite setup_py_after_prelude. unfold bind.
  destruct (version_prelude_log w (module_globals w (cwd p)) p) as [evs [Hq Hr]].
  destruct (version_prelude w (module_globals w (cwd p)) p) as [[v| |] q];
    cbn [fst snd] in *; try reflexivity.
  subst q. cbn [cwd environ log]. destruct Hr as [Hw Hp]. eauto 10.
Qed.
